(** * Mitten: the GeoJSON converter and the environmental router

    A shallow embedding of
    - [backend/scripts/simple_geojson_converter.js] (module [Simple]),
    - the backend's fuller converter script, geojson_to_mockdata.js, which
      carries the same two functions with a label fallback and an early
      return (module [ToMockData]),
    - [frontend/src/server/api/routers/environmental.ts] (module
      [Environmental]),
    followed by the properties proved about them.

    JavaScript numbers are IEEE 754 binary64 values: they are modelled by
    Rocq's primitive floats.  Array lengths, loop counters and the sampling
    budget are integers. *)

From Stdlib Require Import ZArith String Ascii DecimalString Bool Lia PrimFloat List.
From Equations Require Import Equations.
Import ListNotations.

Set Implicit Arguments.
Set Warnings "-inexact-float,-register-all".

(** ** JavaScript results: a value, or a thrown error *)

Module Js.

Inductive error : Type :=
| TypeError.

Inductive result (A : Type) : Type :=
| Ok (a : A)
| Throw (e : error).
Arguments Ok {A} a.
Arguments Throw {A} e.

Definition bind {A B} (r : result A) (k : A -> result B) : result B :=
  match r with
  | Ok a => k a
  | Throw e => Throw e
  end.

(** [xs.forEach(cb)] where [cb] updates the state [s] captured by the
    closure; a throw inside [cb] leaves the loop at once. *)
Fixpoint forEach {A S} (xs : list A) (cb : A -> S -> result S) (s : S)
  : result S :=
  match xs with
  | [] => Ok s
  | x :: rest => bind (cb x s) (forEach rest cb)
  end.

End Js.

Notation "x <- r ;; k" := (Js.bind r (fun x => k))
(at level 61, r at next level, right associativity).

(** ** JavaScript strings

    A string is a sequence of characters.  [toLowerCase] is
    [String.prototype.toLowerCase] on strings of ASCII characters: the
    letters A to Z go to a to z and every other character stays.  Letters
    outside ASCII are not lowercased here; a statement whose answer could
    turn on them is made for ASCII strings. *)

Module JsString.

Definition lowerChar (c : ascii) : ascii :=
  let k := nat_of_ascii c in
  if (65 <=? k)%nat && (k <=? 90)%nat then ascii_of_nat (k + 32) else c.

Fixpoint toLowerCase (s : string) : string :=
  match s with
  | EmptyString => EmptyString
  | String c rest => String (lowerChar c) (toLowerCase rest)
  end.

(** [s.startsWith(t)] *)
Fixpoint startsWith (s t : string) {struct t} : bool :=
  match t, s with
  | EmptyString, _ => true
  | String _ _, EmptyString => false
  | String b t', String a s' => Ascii.eqb a b && startsWith s' t'
  end.

(** [s.includes(t)]: [t] starts at some position of [s]. *)
Fixpoint includes (s t : string) : bool :=
  startsWith s t ||
  match s with
  | EmptyString => false
  | String _ rest => includes rest t
  end.

(** The template literal of an integer: its decimal digits. *)
Definition ofInteger (z : Z) : string :=
  NilZero.string_of_int (Z.to_int z).

(** [l.toUpperCase()] for one character; modelled on the letters a to z. *)
Definition upperChar (c : ascii) : ascii :=
  let k := nat_of_ascii c in
  if (97 <=? k)%nat && (k <=? 122)%nat then ascii_of_nat (k - 32) else c.

(** The class [\w] of a regular expression without the [u] flag: the
    letters, the digits and the underscore. *)
Definition isWordChar (c : ascii) : bool :=
  let k := nat_of_ascii c in
  ((65 <=? k)%nat && (k <=? 90)%nat)
  || ((97 <=? k)%nat && (k <=? 122)%nat)
  || ((48 <=? k)%nat && (k <=? 57)%nat)
  || (k =? 95)%nat.

(** [s.replace(/_/g, ' ')] *)
Fixpoint replaceUnderscores (s : string) : string :=
  match s with
  | EmptyString => EmptyString
  | String c rest =>
      String (if Ascii.eqb c "_" then " "%char else c) (replaceUnderscores rest)
  end.

(** [s.replace(/\b\w/g, l => l.toUpperCase())]: a word character is
    replaced when the character before it is not one (or there is none).
    [afterWord] tells whether the character before [s] is a word
    character. *)
Fixpoint capitalizeFrom (afterWord : bool) (s : string) : string :=
  match s with
  | EmptyString => EmptyString
  | String c rest =>
      String (if isWordChar c && negb afterWord then upperChar c else c)
             (capitalizeFrom (isWordChar c) rest)
  end.

Definition capitalizeWords (s : string) : string := capitalizeFrom false s.

End JsString.

(** ** The sampling loop shared by both converter scripts *)

Module Sampler.
Section Loop.

Context {A : Type}.
Variable coords : list A.
Variable n : Z.

(** [Math.max(Math.floor(coords.length / n), 1)].  For [n = 0] JavaScript
    gets [Infinity] (or [NaN]) here and [Z] gets [1]; the loop below does
    not run a single round then, so the step is never added. *)
Definition step : nat :=
  Z.to_nat (Z.max (Z.of_nat (length coords) / n) 1).

(** The [for] loop: [i] and [sampled] are its two variables.  The read
    [coords[i]] happens under the guard [i < coords.length], so it is in
    range and the [None] branch is never taken. *)
Equations? loop (i : nat) (sampled : list A) : list A
  by wf (length coords - i) lt :=
  loop i sampled with lt_dec i (length coords) := {
    | right _ := sampled
    | left Hi with Z_lt_dec (Z.of_nat (length sampled)) n := {
        | right _ := sampled
        | left _ with nth_error coords i := {
            | Some c := loop (i + step) (sampled ++ [c])
            | None := sampled } } }.
Proof. unfold step. lia. Qed.

End Loop.
End Sampler.

(** ** GeoJSON as [JSON.parse] delivers it *)

Module GeoJson.

(** A JSON value, as found in a feature's property bag. *)
Inductive Json : Type :=
| JNull
| JBool (b : bool)
| JNum (x : float)
| JStr (s : string)
| JArr (xs : list Json)
| JObj (fields : list (string * Json)).

(** Nested arrays of numbers: what [geometry.coordinates] holds. *)
Inductive Coords : Type :=
| Num (x : float)
| Arr (xs : list Coords).

Record Geometry : Type := {
  type : string;
  coordinates : Coords
}.

(** [properties] is [None] when the member is missing; [geometry] is [None]
    when it is [null] or missing. *)
Record Feature : Type := {
  properties : option Json;
  geometry : option Geometry
}.

(** [features] is [None] when the member is missing. *)
Record FeatureCollection : Type := {
  features : option (list Feature)
}.

(** An extracted point.  [None] stands for [undefined]. *)
Record Coordinate : Type := {
  lat : option Coords;
  lng : option Coords;
  label : option Json
}.

(** JavaScript truthiness of a JSON value: [null], [false], [0], [-0],
    [NaN] and the empty string are falsy. *)
Definition truthy (v : Json) : bool :=
  match v with
  | JNull => false
  | JBool b => b
  | JNum x => (x <? 0)%float || (0 <? x)%float
  | JStr s => negb (s =? "")%string
  | JArr _ => true
  | JObj _ => true
  end.

Fixpoint lookup (fields : list (string * Json)) (key : string) : option Json :=
  match fields with
  | [] => None
  | (k, v) :: rest => if (k =? key)%string then Some v else lookup rest key
  end.

(** [v?.key] for the keys read by the scripts ([FieldName], [name]): only
    an object can hold them; [undefined] and [null] short-circuit.  The
    field list of an object holds its members, one binding per key. *)
Definition optGet (v : option Json) (key : string) : option Json :=
  match v with
  | Some (JObj fields) => lookup fields key
  | _ => None
  end.

(** [a || b] *)
Definition or (a b : option Json) : option Json :=
  match a with
  | Some v => if truthy v then a else b
  | None => b
  end.

(** [v.forEach(cb)]: a number has no [forEach]. *)
Definition forEachArr {S} (v : Coords) (cb : Coords -> S -> Js.result S) (s : S)
  : Js.result S :=
  match v with
  | Arr xs => Js.forEach xs cb s
  | Num _ => Js.Throw Js.TypeError
  end.

(** The pattern [[lng, lat]]: a number is not iterable; a short array
    leaves the missing names [undefined]. *)
Definition destructure (v : Coords) : Js.result (option Coords * option Coords) :=
  match v with
  | Arr xs => Js.Ok (nth_error xs 0, nth_error xs 1)
  | Num _ => Js.Throw Js.TypeError
  end.

(** [([lng, lat]) => { coords.push({ lat, lng, label }) }], and the two
    statements of the [Point] branch. *)
Definition pushPoint (label : option Json) (position : Coords)
  (coords : list Coordinate) : Js.result (list Coordinate) :=
  p <- destructure position ;;
  Js.Ok (coords ++ [{| lat := snd p; lng := fst p; label := label |}]).

(** The callback of [geojson.features.forEach]; the two scripts differ in
    the expression that computes [label] only. *)
Definition visitFeature (labelOf : Feature -> option Json) (feature : Feature)
  (coords : list Coordinate) : Js.result (list Coordinate) :=
  let label := labelOf feature in
  match geometry feature with
  | None => Js.Throw Js.TypeError
  | Some geometry =>
      if (type geometry =? "Polygon")%string then
        forEachArr (coordinates geometry) (fun ring =>
          forEachArr ring (pushPoint label)) coords
      else if (type geometry =? "MultiPolygon")%string then
        forEachArr (coordinates geometry) (fun poly =>
          forEachArr poly (fun ring =>
            forEachArr ring (pushPoint label))) coords
      else if (type geometry =? "Point")%string then
        pushPoint label (coordinates geometry) coords
      else Js.Ok coords
  end.

End GeoJson.

(** ** simple_geojson_converter.js *)

Module Simple.
Import GeoJson.

(** [feature.properties?.FieldName || "Unknown"] *)
Definition labelOf (feature : Feature) : option Json :=
  or (optGet (properties feature) "FieldName") (Some (JStr "Unknown")).

Definition extractCoordinates (geojson : FeatureCollection)
  : Js.result (list Coordinate) :=
  match features geojson with
  | None => Js.Throw Js.TypeError
  | Some fs => Js.forEach fs (visitFeature labelOf) []
  end.

Definition sampleCoordinates {A} (coords : list A) (n : Z) : list A :=
  Sampler.loop coords n 0 [].

(** The default value of the parameter [n]. *)
Definition default_n : Z := 50.

(** *** The body of the script *)

Module Charity.
Record t : Type := {
  name : string;
  url : string;
  description : string
}.
End Charity.

Module Metadata.
Record t : Type := {
  title : string;
  description : string;
  source : string;
  lastUpdated : Z
}.
End Metadata.

Module Visualization.
Record t : Type := {
  type : string;
  data : list Coordinate;
  metadata : Metadata.t
}.
End Visualization.

Module MockData.
Record t : Type := {
  id : string;
  originalQuery : string;
  category : string;
  summary : string;
  sources : list string;
  charities : list Charity.t;
  visualizations : list Visualization.t;
  shareableUrl : string;
  generatedAt : Z
}.
End MockData.

(** The statements of the script after the input file is parsed:
    [geojson] is what [JSON.parse] gave, [clock k] what the [k]-th reading
    of the clock gives.  The answer is the object handed to
    [fs.writeFileSync]; a throw is not caught and ends the script before
    anything is written. *)
Definition script (geojson : FeatureCollection) (clock : nat -> Z)
  : Js.result MockData.t :=
  allCoords <- extractCoordinates geojson ;;
  let sampledCoords := sampleCoordinates allCoords 50 in
  Js.Ok {|
    MockData.id := "mock_1";
    MockData.originalQuery := "Michigan Gas Storage Fields";
    MockData.category := "energy";
    MockData.summary := "Sampled gas storage field coordinates in Michigan.";
    MockData.sources := ["Michigan Gas Storage Data 2025"]%string;
    MockData.charities := [];
    MockData.visualizations := [
      {| Visualization.type := "pinpoints";
         Visualization.data := sampledCoords;
         Visualization.metadata := {|
           Metadata.title := "Gas Storage Fields";
           Metadata.description :=
             "50 sampled coordinates from Michigan gas storage fields.";
           Metadata.source := "Michigan Gas Storage Data";
           Metadata.lastUpdated := clock 0%nat |} |} ];
    MockData.shareableUrl := "https://enviducate.org/mock-result";
    MockData.generatedAt := clock 1%nat |}.

End Simple.

(** ** geojson_to_mockdata.js *)

Module ToMockData.
Import GeoJson.

(** [feature.properties?.FieldName || feature.properties?.name || "Unknown"] *)
Definition labelOf (feature : Feature) : option Json :=
  or (or (optGet (properties feature) "FieldName")
         (optGet (properties feature) "name"))
     (Some (JStr "Unknown")).

Definition extractCoordinates (geojson : FeatureCollection)
  : Js.result (list Coordinate) :=
  match features geojson with
  | None => Js.Ok []
  | Some fs => Js.forEach fs (visitFeature labelOf) []
  end.

Definition sampleCoordinates {A} (coords : list A) (n : Z) : list A :=
  if (Z.of_nat (length coords) <=? n)%Z then coords
  else Sampler.loop coords n 0 [].

(** The six strings [generateCategory] returns. *)
Inductive Category : Type :=
| energy | water | forest | wildlife | air | environmental.

Definition generateCategory {A} (filename : string) (coords : list A)
  : Category :=
  let name := JsString.toLowerCase filename in
  if JsString.includes name "gas" || JsString.includes name "energy"
     || JsString.includes name "oil" then energy
  else if JsString.includes name "water" || JsString.includes name "lake"
          || JsString.includes name "river" then water
  else if JsString.includes name "forest" || JsString.includes name "tree"
          || JsString.includes name "wood" then forest
  else if JsString.includes name "wildlife" || JsString.includes name "animal"
          || JsString.includes name "bird" then wildlife
  else if JsString.includes name "air" || JsString.includes name "pollution"
          || JsString.includes name "quality" then air
  else environmental.

(** [categoryMap[category]] of [generateSummary] *)
Definition categoryMap (category : Category) : option string :=
  match category with
  | energy => Some "energy infrastructure and facilities"
  | water => Some "water bodies and aquatic features"
  | forest => Some "forest areas and vegetation"
  | wildlife => Some "wildlife habitats and species locations"
  | air => Some "air quality monitoring points"
  | environmental => Some "environmental monitoring points"
  end%string.

Definition generateSummary {A} (filename : string) (coords : list A)
  (category : Category) : string :=
  let count := length coords in
  let description :=
    match categoryMap category with
    | Some d => if (d =? "")%string then "environmental features" else d
    | None => "environmental features"
    end%string in
  ("Geospatial data containing " ++ JsString.ofInteger (Z.of_nat count)
   ++ " coordinate points representing " ++ description
   ++ " in Michigan. This dataset provides valuable insights into the distribution and characteristics of "
   ++ description ++ " across the state.")%string.

Module Charity.
Record t : Type := {
  name : string;
  url : string;
  description : string
}.
End Charity.

(** [charityMap[category]] of [getRelevantCharities] *)
Definition charityMap (category : Category) : option (list Charity.t) :=
  match category with
  | energy => Some [
      {| Charity.name := "Michigan Environmental Council";
         Charity.url := "https://www.environmentalcouncil.org";
         Charity.description := "Advocating for clean energy and environmental protection in Michigan" |};
      {| Charity.name := "Sierra Club Michigan";
         Charity.url := "https://www.sierraclub.org/michigan";
         Charity.description := "Environmental protection and clean energy advocacy" |} ]
  | water => Some [
      {| Charity.name := "Great Lakes Protection Fund";
         Charity.url := "https://www.glpf.org";
         Charity.description := "Protecting the Great Lakes ecosystem" |};
      {| Charity.name := "Michigan Environmental Council";
         Charity.url := "https://www.environmentalcouncil.org";
         Charity.description := "Water quality protection in Michigan" |} ]
  | forest => Some [
      {| Charity.name := "Michigan Nature Association";
         Charity.url := "https://www.michigannature.org";
         Charity.description := "Protecting Michigan's natural areas and forests" |};
      {| Charity.name := "The Nature Conservancy Michigan";
         Charity.url := "https://www.nature.org/michigan";
         Charity.description := "Forest conservation and restoration" |} ]
  | wildlife => Some [
      {| Charity.name := "Michigan Audubon";
         Charity.url := "https://www.michiganaudubon.org";
         Charity.description := "Bird and wildlife conservation" |};
      {| Charity.name := "Michigan Nature Association";
         Charity.url := "https://www.michigannature.org";
         Charity.description := "Wildlife habitat protection" |} ]
  | air => Some [
      {| Charity.name := "Michigan Environmental Council";
         Charity.url := "https://www.environmentalcouncil.org";
         Charity.description := "Air quality protection and environmental health" |};
      {| Charity.name := "American Lung Association Michigan";
         Charity.url := "https://www.lung.org/michigan";
         Charity.description := "Clean air advocacy and lung health" |} ]
  | environmental => None
  end.

(** An array is truthy, so [||] falls back only when the key is missing. *)
Definition getRelevantCharities (category : Category) : list Charity.t :=
  match charityMap category with
  | Some charities => charities
  | None => [
      {| Charity.name := "Michigan Environmental Council";
         Charity.url := "https://www.environmentalcouncil.org";
         Charity.description := "Environmental protection in Michigan" |};
      {| Charity.name := "The Nature Conservancy Michigan";
         Charity.url := "https://www.nature.org/michigan";
         Charity.description := "Conservation and environmental protection" |} ]
  end.

(** *** processFile *)

Module Metadata.
Record t : Type := {
  title : string;
  description : string;
  source : string;
  lastUpdated : Z;
  totalPoints : nat;
  sampledPoints : nat
}.
End Metadata.

Module Visualization.
Record t : Type := {
  type : string;
  data : list Coordinate;
  metadata : Metadata.t
}.
End Visualization.

Module MockData.
Record t : Type := {
  id : string;
  originalQuery : string;
  category : Category;
  summary : string;
  sources : list string;
  charities : list Charity.t;
  visualizations : list Visualization.t;
  shareableUrl : string;
  generatedAt : Z
}.
End MockData.

(** The body of [processFile] between the read of the input file and the
    write of the output file.
    - [parsed] is the outcome of [JSON.parse(fs.readFileSync(inputPath))],
    - [filename] is [path.basename(inputPath, path.extname(inputPath))],
    - [clock k] is what the [k]-th reading of the clock gives.
    The answer is the object handed to [fs.writeFileSync] when the function
    returns [true], and [None] when it returns [false]: the [catch] block,
    or the test [allCoords.length === 0]. *)
Definition processFile (filename : string)
  (parsed : Js.result FeatureCollection) (clock : nat -> Z)
  : option MockData.t :=
  match (geojson <- parsed ;; extractCoordinates geojson) with
  | Js.Throw _ => None
  | Js.Ok allCoords =>
      if (length allCoords =? 0)%nat then None
      else
        let sampledCoords := sampleCoordinates allCoords 50 in
        let category := generateCategory filename allCoords in
        let summary := generateSummary filename allCoords category in
        let charities := getRelevantCharities category in
        Some {|
          MockData.id := "mock_" ++ JsString.ofInteger (clock 0%nat);
          MockData.originalQuery :=
            JsString.capitalizeWords (JsString.replaceUnderscores filename);
          MockData.category := category;
          MockData.summary := summary;
          MockData.sources :=
            ["Michigan Environmental Data 2025"; "Geospatial Analysis"]%string;
          MockData.charities := charities;
          MockData.visualizations := [
            {| Visualization.type := "pinpoints";
               Visualization.data := sampledCoords;
               Visualization.metadata := {|
                 Metadata.title :=
                   JsString.capitalizeWords
                     (JsString.replaceUnderscores filename);
                 Metadata.description := summary;
                 Metadata.source := "Michigan Environmental Data";
                 Metadata.lastUpdated := clock 1%nat;
                 Metadata.totalPoints := length allCoords;
                 Metadata.sampledPoints := length sampledCoords |} |} ];
          MockData.shareableUrl :=
            "https://enviducate.org/mock-result-"
            ++ JsString.ofInteger (clock 2%nat);
          MockData.generatedAt := clock 3%nat |}
  end.

End ToMockData.

(** ** environmental.ts *)

Module Environmental.
Import JsString.

Inductive Category : Type := deforestation | biodiversity | wildfire.
Inductive Severity : Type := low | medium | high.
Inductive VisualizationType : Type := pinpoints | heatmap | numbers.

Module LocationPoint.
Record t : Type := {
  lat : float;
  lng : float;
  name : string;
  value : float;
  severity : Severity
}.
End LocationPoint.

Module HeatmapCell.
Record t : Type := {
  lat : float;
  lng : float;
  intensity : float;
  value : float
}.
End HeatmapCell.

Module Bounds.
Record t : Type := {
  north : float;
  south : float;
  east : float;
  west : float
}.
End Bounds.

Module Heatmap.
Record t : Type := {
  bounds : Bounds.t;
  gridSize : float;
  data : list HeatmapCell.t
}.
End Heatmap.

Module Metric.
Record t : Type := {
  label : string;
  value : string;
  change : float
}.
End Metric.

Module Numbers.
Record t : Type := {
  totalAffectedArea : float;
  percentageChange : float;
  timeframe : string;
  keyMetrics : list Metric.t
}.
End Numbers.

Module Charity.
Record t : Type := {
  name : string;
  url : string;
  description : string
}.
End Charity.

(** An instant is the number of milliseconds [Date.now()] returns;
    [toISOString] is its rendering and is not spelled out. *)
Definition Instant : Type := Z.

Module Metadata.
Record t : Type := {
  title : string;
  description : string;
  source : string;
  lastUpdated : Instant
}.
End Metadata.

(** The member [data] of a visualization, whose shape follows [type]. *)
Inductive VisualizationData : Type :=
| PinpointData (points : list LocationPoint.t)
| HeatmapData (grid : Heatmap.t)
| NumbersData (figures : Numbers.t).

Module Visualization.
Record t : Type := {
  type : VisualizationType;
  data : VisualizationData;
  metadata : Metadata.t
}.
End Visualization.

(** The three module-level mock datasets. *)
Record MockData : Type := {
  mockPinpointData : list LocationPoint.t;
  mockHeatmapData : Heatmap.t;
  mockNumbersData : Numbers.t
}.

(** *** Asynchronous code: a computation over the clock (milliseconds) *)

Definition Async (A : Type) : Type := Instant -> A * Instant.

Definition ret {A} (a : A) : Async A := fun t => (a, t).

Definition await {A B} (m : Async A) (k : A -> Async B) : Async B :=
  fun t => let (a, t') := m t in k a t'.

(** [new Promise(resolve => setTimeout(resolve, ms))] *)
Definition setTimeout (ms : Z) : Async unit := fun t => (tt, (t + ms)%Z).

(** [Date.now()], [new Date()] *)
Definition now : Async Instant := fun t => (t, t).

Notation "x <~ m ;; k" := (await m (fun x => k))
  (at level 61, m at next level, right associativity).

(** *** processWithGemini *)

Module Response.
Record t : Type := {
  summary : string;
  sources : list string;
  charities : list Charity.t
}.
End Response.

Module Processed.
Record t : Type := {
  category : Category;
  summary : string;
  sources : list string;
  charities : list Charity.t
}.
End Processed.

Definition mockResponses (category : Category) : Response.t :=
  match category with
  | deforestation => {|
      Response.summary := "Michigan's Upper Peninsula has experienced a 12.5% reduction in forest coverage from 2017-2024, primarily due to industrial logging and urban expansion. The Huron-Manistee National Forests show the most significant changes, with approximately 125,000 acres affected. Climate change has accelerated natural forest stress, making trees more susceptible to disease and extreme weather events.";
      Response.sources := ["Michigan DNR Forest Report 2024"; "USFS Upper Peninsula Survey"; "Michigan Environmental Council"]%string;
      Response.charities := [
        {| Charity.name := "Michigan Forest Association"; Charity.url := "https://michiganforests.com"; Charity.description := "Promoting sustainable forestry practices" |};
        {| Charity.name := "Trees for Tomorrow"; Charity.url := "https://treesfortomorrow.com"; Charity.description := "Reforestation and education programs" |};
        {| Charity.name := "Great Lakes Forest Alliance"; Charity.url := "https://greatlakesforest.org"; Charity.description := "Protecting Great Lakes region forests" |} ] |}
  | biodiversity => {|
      Response.summary := "Michigan's Great Lakes wetlands support over 2,800 species, with Saginaw Bay and Thunder Bay serving as critical biodiversity hotspots. Recent studies show a 8.3% increase in migratory bird populations but a 15% decline in native fish species. Invasive species like zebra mussels continue to impact ecosystem balance, while restoration efforts have successfully protected 102 critical habitats.";
      Response.sources := ["Michigan DNR Wildlife Survey 2024"; "Great Lakes Biodiversity Report"; "Audubon Michigan"]%string;
      Response.charities := [
        {| Charity.name := "Ducks Unlimited"; Charity.url := "https://ducks.org"; Charity.description := "Wetland habitat conservation" |};
        {| Charity.name := "Great Lakes Protection Fund"; Charity.url := "https://glpf.org"; Charity.description := "Ecosystem restoration and protection" |};
        {| Charity.name := "Michigan Audubon"; Charity.url := "https://michiganaudubon.org"; Charity.description := "Bird and habitat conservation" |} ] |}
  | wildfire => {|
      Response.summary := "Michigan's Upper Peninsula faces moderate wildfire risk, with 35,000 acres classified as high-risk zones. Recent drought conditions and increasing temperatures have elevated fire danger levels by 22% since 2020. The Michigan DNR has implemented enhanced monitoring systems and community education programs, successfully reducing average fire response time to 12 minutes.";
      Response.sources := ["Michigan DNR Fire Division"; "National Interagency Fire Center"; "Michigan State Climatology Office"]%string;
      Response.charities := [
        {| Charity.name := "Michigan Forest Fire Prevention"; Charity.url := "https://michigan.gov/dnr"; Charity.description := "Fire prevention and education" |};
        {| Charity.name := "Wildfire Recovery Fund"; Charity.url := "https://wildfirerecovery.org"; Charity.description := "Supporting fire-affected communities" |};
        {| Charity.name := "Forest Service Foundation"; Charity.url := "https://nationalforests.org"; Charity.description := "Supporting forest management and recovery" |} ] |}
  end.

Definition processWithGemini (query : string) : Async Processed.t :=
  _ <~ setTimeout 1000 ;;
  let category := biodiversity in
  let category :=
    if includes (toLowerCase query) "forest"
       || includes (toLowerCase query) "deforest" then deforestation
    else if includes (toLowerCase query) "fire"
            || includes (toLowerCase query) "wildfire" then wildfire
    else category in
  ret {| Processed.category := category;
         Processed.summary := Response.summary (mockResponses category);
         Processed.sources := Response.sources (mockResponses category);
         Processed.charities := Response.charities (mockResponses category) |}.

(** *** The input and the result of [processQuery] *)

Module Query.
Record t : Type := {
  query : string;
  category : option Category;
  timeRange : option string
}.
End Query.

Module EnvironmentalResult.
Record t : Type := {
  id : string;
  originalQuery : string;
  category : Category;
  summary : string;
  sources : list string;
  charities : list Charity.t;
  visualizations : list Visualization.t;
  shareableUrl : string;
  generatedAt : Instant
}.
End EnvironmentalResult.

(** *** generateSingleVisualization, generateVisualizations *)

Section Router.

(** What the module-level datasets hold when a request is served. *)
Variable db : MockData.

(** [process.env.NEXTAUTH_URL]; [None] when the variable is not set. *)
Variable NEXTAUTH_URL : option string.

(** The clock by the next time it is read in the same run of statements:
    [processQuery] reads it three times in a row, and the readings need
    not agree. *)
Variable later : Instant -> Instant.

Definition metadata (category : Category) : string * string * string :=
  match category with
  | deforestation =>
      ("Forest Coverage Changes",
       "Areas of significant forest loss and recovery in Michigan",
       "Michigan DNR, USFS")
  | biodiversity =>
      ("Biodiversity Hotspots",
       "Species-rich areas and conservation priorities",
       "Michigan DNR Wildlife Division")
  | wildfire =>
      ("Wildfire Risk Assessment",
       "Fire danger zones and prevention areas",
       "Michigan DNR Fire Division")
  end%string.

Definition generateSingleVisualization (type : VisualizationType)
  (category : Category) : Async Visualization.t :=
  _ <~ setTimeout 500 ;;
  lastUpdated <~ now ;;
  let baseMetadata := {|
    Metadata.title := fst (fst (metadata category));
    Metadata.description := snd (fst (metadata category));
    Metadata.source := snd (metadata category);
    Metadata.lastUpdated := lastUpdated |} in
  match type with
  | pinpoints =>
      ret {|
        Visualization.type := pinpoints;
        Visualization.data := PinpointData
          (map (fun point => {|
             LocationPoint.lat := LocationPoint.lat point;
             LocationPoint.lng := LocationPoint.lng point;
             LocationPoint.name := LocationPoint.name point;
             LocationPoint.value :=
               match category with
               | wildfire => (LocationPoint.value point * 0.6)%float
               | _ => LocationPoint.value point
               end;
             LocationPoint.severity := LocationPoint.severity point |})
           (mockPinpointData db));
        Visualization.metadata := baseMetadata |}
  | heatmap =>
      ret {|
        Visualization.type := heatmap;
        Visualization.data := HeatmapData {|
          Heatmap.bounds := Heatmap.bounds (mockHeatmapData db);
          Heatmap.gridSize := Heatmap.gridSize (mockHeatmapData db);
          Heatmap.data :=
            map (fun cell => {|
              HeatmapCell.lat := HeatmapCell.lat cell;
              HeatmapCell.lng := HeatmapCell.lng cell;
              HeatmapCell.intensity :=
                match category with
                | deforestation => (1 - HeatmapCell.intensity cell)%float
                | _ => HeatmapCell.intensity cell
                end;
              HeatmapCell.value := HeatmapCell.value cell |})
            (Heatmap.data (mockHeatmapData db)) |};
        Visualization.metadata := baseMetadata |}
  | numbers =>
      ret {|
        Visualization.type := numbers;
        Visualization.data := NumbersData {|
          Numbers.totalAffectedArea :=
            Numbers.totalAffectedArea (mockNumbersData db);
          Numbers.percentageChange :=
            Numbers.percentageChange (mockNumbersData db);
          Numbers.timeframe := Numbers.timeframe (mockNumbersData db);
          Numbers.keyMetrics :=
            map (fun metric => {|
              Metric.label := Metric.label metric;
              Metric.value := Metric.value metric;
              Metric.change :=
                match category with
                | wildfire => abs (Metric.change metric)
                | _ => Metric.change metric
                end |})
            (Numbers.keyMetrics (mockNumbersData db)) |};
        Visualization.metadata := baseMetadata |}
  end.

Definition generateVisualizations (category : Category)
  (timeRange : option string) : Async (list Visualization.t) :=
  let visualizations := [] in
  v1 <~ generateSingleVisualization pinpoints category ;;
  v2 <~ generateSingleVisualization heatmap category ;;
  v3 <~ generateSingleVisualization numbers category ;;
  ret (visualizations ++ [v1; v2; v3]).

(** *** The procedures of the router *)

(** [processQuery]: [QuerySchema] turns an empty query down with its
    message before the handler runs. *)
Definition processQuery (input : Query.t)
  : Async (string + EnvironmentalResult.t) :=
  if (Query.query input =? "")%string then ret (inl "Query cannot be empty"%string)
  else
    processed <~ processWithGemini (Query.query input) ;;
    visualizations <~
      generateVisualizations (Processed.category processed)
                             (Query.timeRange input) ;;
    idNow <~ now ;;
    _ <~ (fun t => (tt, later t)) ;;
    urlNow <~ now ;;
    _ <~ (fun t => (tt, later t)) ;;
    generatedAt <~ now ;;
    ret (inr {|
      EnvironmentalResult.id := "query_" ++ ofInteger idNow;
      EnvironmentalResult.originalQuery := Query.query input;
      EnvironmentalResult.category := Processed.category processed;
      EnvironmentalResult.summary := Processed.summary processed;
      EnvironmentalResult.sources := Processed.sources processed;
      EnvironmentalResult.charities := Processed.charities processed;
      EnvironmentalResult.visualizations := visualizations;
      EnvironmentalResult.shareableUrl :=
        match NEXTAUTH_URL with Some u => u | None => "undefined" end
        ++ "/results/" ++ ofInteger urlNow;
      EnvironmentalResult.generatedAt := generatedAt |}).

(** [getVisualization] *)
Definition getVisualization (type : VisualizationType) (category : Category)
  : Async Visualization.t :=
  generateSingleVisualization type category.

End Router.

(** *** The datasets as the module initialises them *)

Definition initialPinpointData : list LocationPoint.t := [
  {| LocationPoint.lat := 46.5547; LocationPoint.lng := -84.3675;
     LocationPoint.name := "Tahquamenon Falls State Park";
     LocationPoint.value := 85; LocationPoint.severity := low |};
  {| LocationPoint.lat := 45.0218; LocationPoint.lng := -83.5539;
     LocationPoint.name := "Huron-Manistee Forest";
     LocationPoint.value := 65; LocationPoint.severity := medium |};
  {| LocationPoint.lat := 46.9059; LocationPoint.lng := -88.5498;
     LocationPoint.name := "Copper Harbor";
     LocationPoint.value := 40; LocationPoint.severity := high |};
  {| LocationPoint.lat := 42.4072; LocationPoint.lng := -83.9424;
     LocationPoint.name := "Detroit River";
     LocationPoint.value := 75; LocationPoint.severity := medium |};
  {| LocationPoint.lat := 44.3106; LocationPoint.lng := -85.6027;
     LocationPoint.name := "Traverse City Bay";
     LocationPoint.value := 90; LocationPoint.severity := low |} ]%float.

(** A small non-negative integer as a JavaScript number. *)
Fixpoint ofNat (k : nat) : float :=
  match k with
  | O => 0%float
  | S k' => (ofNat k' + 1)%float
  end.

(** [randomIntensity i] is the value [Math.random()] gave for the intensity
    of cell [i] when the module was loaded, [randomValue i] the value of
    [Math.floor(Math.random() * 100)] for that cell. *)
Definition initialHeatmapData (randomIntensity randomValue : nat -> float)
  : Heatmap.t := {|
  Heatmap.bounds := {| Bounds.north := 48.0; Bounds.south := 41.0;
                       Bounds.east := -82.0; Bounds.west := -90.0 |}%float;
  Heatmap.gridSize := 10%float;
  Heatmap.data :=
    map (fun i => {|
      HeatmapCell.lat := (41 + ofNat (i mod 10) * 0.7)%float;
      HeatmapCell.lng := (-90 + ofNat (i / 10) * 0.8)%float;
      HeatmapCell.intensity := randomIntensity i;
      HeatmapCell.value := randomValue i |})
    (seq 0 100) |}.

Definition initialNumbersData : Numbers.t := {|
  Numbers.totalAffectedArea := 1250000%float;
  Numbers.percentageChange := (-12.5)%float;
  Numbers.timeframe := "2017-2024";
  Numbers.keyMetrics := [
    {| Metric.label := "Forest Coverage"; Metric.value := "52.1%";
       Metric.change := (-2.3)%float |};
    {| Metric.label := "Wetland Area"; Metric.value := "11.2M acres";
       Metric.change := (-0.8)%float |};
    {| Metric.label := "Species Count"; Metric.value := "2,847";
       Metric.change := 1.2%float |};
    {| Metric.label := "Protected Areas"; Metric.value := "102";
       Metric.change := 3.0%float |} ] |}.

Definition initialMockData (randomIntensity randomValue : nat -> float)
  : MockData := {|
  mockPinpointData := initialPinpointData;
  mockHeatmapData := initialHeatmapData randomIntensity randomValue;
  mockNumbersData := initialNumbersData |}.

End Environmental.

(** ** Reference definitions used by the statements *)

Module Reference.

(** The elements of [coords] at [i], [i + step], [i + 2 * step], ...: at
    most [count] of them, stopping at the end of [coords]. *)
Fixpoint strideFrom {A} (coords : list A) (step i count : nat) : list A :=
  match count with
  | O => []
  | S count' =>
      match nth_error coords i with
      | Some c => c :: strideFrom coords step (i + step) count'
      | None => []
      end
  end.

(** Well-formed GeoJSON coordinates, built from typed [(lng, lat)] pairs. *)
Definition position (p : float * float) : GeoJson.Coords :=
  GeoJson.Arr [GeoJson.Num (fst p); GeoJson.Num (snd p)].

Definition linearRing (ring : list (float * float)) : GeoJson.Coords :=
  GeoJson.Arr (map position ring).

Definition polygon (rings : list (list (float * float))) : GeoJson.Coords :=
  GeoJson.Arr (map linearRing rings).

Definition multiPolygon (polys : list (list (list (float * float))))
  : GeoJson.Coords :=
  GeoJson.Arr (map polygon polys).

(** The point expected for the input pair [(lng, lat)]: latitude in [lat],
    longitude in [lng]. *)
Definition extracted (label : option GeoJson.Json) (p : float * float)
  : GeoJson.Coordinate :=
  {| GeoJson.lat := Some (GeoJson.Num (snd p));
     GeoJson.lng := Some (GeoJson.Num (fst p));
     GeoJson.label := label |}.

(** A feature with a geometry of the given type. *)
Definition feature (props : option GeoJson.Json) (type : string)
  (coordinates : GeoJson.Coords) : GeoJson.Feature :=
  {| GeoJson.properties := props;
     GeoJson.geometry := Some {| GeoJson.type := type;
                                 GeoJson.coordinates := coordinates |} |}.

(** The payload of an artifact, by kind. *)
Definition pinpointsOf (v : Environmental.Visualization.t)
  : option (list Environmental.LocationPoint.t) :=
  match Environmental.Visualization.data v with
  | Environmental.PinpointData points => Some points
  | _ => None
  end.

Definition cellsOf (v : Environmental.Visualization.t)
  : option (list Environmental.HeatmapCell.t) :=
  match Environmental.Visualization.data v with
  | Environmental.HeatmapData grid => Some (Environmental.Heatmap.data grid)
  | _ => None
  end.

Definition metricsOf (v : Environmental.Visualization.t)
  : option (list Environmental.Metric.t) :=
  match Environmental.Visualization.data v with
  | Environmental.NumbersData figures =>
      Some (Environmental.Numbers.keyMetrics figures)
  | _ => None
  end.

(** [cell'] is [cell] with its intensity turned into [1 - intensity]. *)
Definition inverted (cell cell' : Environmental.HeatmapCell.t) : Prop :=
  Environmental.HeatmapCell.intensity cell' =
    (1 - Environmental.HeatmapCell.intensity cell)%float /\
  Environmental.HeatmapCell.lat cell' = Environmental.HeatmapCell.lat cell /\
  Environmental.HeatmapCell.lng cell' = Environmental.HeatmapCell.lng cell /\
  Environmental.HeatmapCell.value cell' = Environmental.HeatmapCell.value cell.

(** [point'] is [point] but for its value, which is something else. *)
Definition sameButValue (point point' : Environmental.LocationPoint.t) : Prop :=
  Environmental.LocationPoint.lat point' = Environmental.LocationPoint.lat point /\
  Environmental.LocationPoint.lng point' = Environmental.LocationPoint.lng point /\
  Environmental.LocationPoint.name point' = Environmental.LocationPoint.name point /\
  Environmental.LocationPoint.severity point' =
    Environmental.LocationPoint.severity point.

(** [point'] is [point] with its value multiplied by 0.6. *)
Definition dampened (point point' : Environmental.LocationPoint.t) : Prop :=
  Environmental.LocationPoint.value point' =
    (Environmental.LocationPoint.value point * 0.6)%float /\
  sameButValue point point'.

(** [metric'] is [metric] with the absolute value of its change. *)
Definition unsigned (metric metric' : Environmental.Metric.t) : Prop :=
  Environmental.Metric.change metric' =
    abs (Environmental.Metric.change metric) /\
  Environmental.Metric.label metric' = Environmental.Metric.label metric /\
  Environmental.Metric.value metric' = Environmental.Metric.value metric.

(** [Subsequence l l']: [l] is [l'] with some elements left out, the others
    in their order. *)
Inductive Subsequence {A} : list A -> list A -> Prop :=
| Subsequence_nil : Subsequence [] []
| Subsequence_skip x l l' : Subsequence l l' -> Subsequence l (x :: l')
| Subsequence_take x l l' : Subsequence l l' -> Subsequence (x :: l) (x :: l').

(** Results are gathered from left to right; the first throw wins. *)
Fixpoint collect {X P} (g : X -> Js.result (list P)) (xs : list X)
  : Js.result (list P) :=
  match xs with
  | [] => Js.Ok []
  | x :: rest =>
      ps <- g x ;; qs <- collect g rest ;; Js.Ok (ps ++ qs)
  end.

(** The elements of an array of coordinates. *)
Definition items (v : GeoJson.Coords) : Js.result (list GeoJson.Coords) :=
  match v with
  | GeoJson.Arr xs => Js.Ok xs
  | GeoJson.Num _ => Js.Throw Js.TypeError
  end.

(** The [(lng, lat)] pairs a geometry holds, read without any label. *)
Definition positionVertex (pos : GeoJson.Coords)
  : Js.result (list (option GeoJson.Coords * option GeoJson.Coords)) :=
  p <- GeoJson.destructure pos ;; Js.Ok [p].

Definition ringVertices (ring : GeoJson.Coords) :=
  xs <- items ring ;; collect positionVertex xs.

Definition polygonVertices (poly : GeoJson.Coords) :=
  rings <- items poly ;; collect ringVertices rings.

Definition multiPolygonVertices (multi : GeoJson.Coords) :=
  polys <- items multi ;; collect polygonVertices polys.

Definition featureVertices (feature : GeoJson.Feature)
  : Js.result (list (option GeoJson.Coords * option GeoJson.Coords)) :=
  match GeoJson.geometry feature with
  | None => Js.Throw Js.TypeError
  | Some g =>
      if (GeoJson.type g =? "Polygon")%string then
        polygonVertices (GeoJson.coordinates g)
      else if (GeoJson.type g =? "MultiPolygon")%string then
        multiPolygonVertices (GeoJson.coordinates g)
      else if (GeoJson.type g =? "Point")%string then
        positionVertex (GeoJson.coordinates g)
      else Js.Ok []
  end.

(** The point made of a [(lng, lat)] pair and a label. *)
Definition labelled (label : option GeoJson.Json)
  (p : option GeoJson.Coords * option GeoJson.Coords) : GeoJson.Coordinate :=
  {| GeoJson.lat := snd p; GeoJson.lng := fst p; GeoJson.label := label |}.

(** The points of one feature, under a rule for its label. *)
Definition featurePoints (labelOf : GeoJson.Feature -> option GeoJson.Json)
  (feature : GeoJson.Feature) : Js.result (list GeoJson.Coordinate) :=
  ps <- featureVertices feature ;;
  Js.Ok (map (labelled (labelOf feature)) ps).

(** The [(lng, lat)] pairs of the points of a result. *)
Definition positionsOf (r : Js.result (list GeoJson.Coordinate))
  : Js.result (list (option GeoJson.Coords * option GeoJson.Coords)) :=
  out <- r ;; Js.Ok (map (fun c => (GeoJson.lng c, GeoJson.lat c)) out).

(** [t] occurs in [s] as a contiguous run of characters. *)
Definition Contains (s t : string) : Prop :=
  exists before after : string, s = (before ++ t ++ after)%string.

(** Lowercasing, character by character, said without [toLowerCase]: an
    upper-case letter A to Z goes to the letter 32 places after it, any
    other character stays. *)
Definition foldsTo (c k : ascii) : Prop :=
  (65 <= nat_of_ascii c <= 90 /\ nat_of_ascii k = nat_of_ascii c + 32) \/
  (~ (65 <= nat_of_ascii c <= 90) /\ k = c).

(** [s] reads [word] once its upper-case letters are lowered. *)
Fixpoint spells (s word : string) : Prop :=
  match s, word with
  | EmptyString, EmptyString => True
  | String c s', String k word' => foldsTo c k /\ spells s' word'
  | _, _ => False
  end.

(** [word] occurs in [text] in some mix of upper and lower case. *)
Definition OccursIgnoringCase (text word : string) : Prop :=
  exists before mid after : string,
    text = (before ++ mid ++ after)%string /\ spells mid word.

(** One of the [words] occurs in [text] in some mix of cases. *)
Definition mentionsIgnoringCase (text : string) (words : list string) : Prop :=
  Exists (OccursIgnoringCase text) words.

(** Every character of [s] is an ASCII character. *)
Definition isAscii (s : string) : Prop :=
  Forall (fun c => nat_of_ascii c < 128) (list_ascii_of_string s).

End Reference.

(** * Properties *)

(** ** The sampling loop *)

Section SamplerFacts.

Context {A : Type}.
Variable coords : list A.
Variable n : Z.

Lemma strideFrom_past_end step i count :
  length coords <= i -> Reference.strideFrom coords step i count = [].
Proof.
  intros Hle. destruct count as [|count]; simpl; [reflexivity|].
  apply nth_error_None in Hle. rewrite Hle. reflexivity.
Qed.

(** The loop appends to [sampled] the strided picks from [i] on, as many
    as the budget still allows. *)
Lemma loop_strideFrom i sampled :
  Sampler.loop coords n i sampled =
  sampled ++ Reference.strideFrom coords (Sampler.step coords n) i
               (Z.to_nat (n - Z.of_nat (length sampled))).
Proof.
  funelim (Sampler.loop coords n i sampled); clear Heqcall.
  - (* i is past the end *)
    rewrite strideFrom_past_end by lia. rewrite app_nil_r. reflexivity.
  - (* the budget is used up *)
    replace (Z.to_nat (n - Z.of_nat (length sampled))) with O by lia.
    simpl. rewrite app_nil_r. reflexivity.
  - (* one more pick *)
    match goal with IH : Sampler.loop _ _ _ _ = _ ++ _ |- _ => rewrite IH end.
    rewrite length_app; simpl.
    replace (Z.to_nat (n - Z.of_nat (length sampled)))
      with (S (Z.to_nat (n - Z.of_nat (length sampled + 1)))) by lia.
    simpl. rewrite Heq. rewrite <- app_assoc. reflexivity.
  - (* the read is in range *)
    apply nth_error_None in Heq. lia.
Qed.

Lemma skipn_nth_error (l : list A) i c :
  nth_error l i = Some c -> skipn i l = c :: skipn (S i) l.
Proof.
  revert i. induction l as [|x l IH]; intros [|i] Hc; simpl in *;
    try discriminate.
  - injection Hc as ->. reflexivity.
  - apply IH. exact Hc.
Qed.

Lemma strideFrom_one count i :
  length coords <= i + count ->
  Reference.strideFrom coords 1 i count = skipn i coords.
Proof.
  revert i. induction count as [|count IH]; intros i Hle; simpl.
  - rewrite skipn_all2 by lia. reflexivity.
  - destruct (nth_error coords i) as [c|] eqn:Hc.
    + rewrite IH by lia. rewrite Nat.add_1_r.
      symmetry. apply skipn_nth_error. exact Hc.
    + apply nth_error_None in Hc. rewrite skipn_all2 by lia. reflexivity.
Qed.

Lemma strideFrom_picks step count i :
  (forall k, k < count -> i + k * step < length coords) ->
  length (Reference.strideFrom coords step i count) = count /\
  forall k, k < count ->
    nth_error (Reference.strideFrom coords step i count) k =
    nth_error coords (i + k * step).
Proof.
  revert i. induction count as [|count IH]; intros i Hin; simpl.
  - split; [reflexivity | intros k Hk; lia].
  - destruct (nth_error coords i) as [c|] eqn:Hc.
    + destruct (IH (i + step)) as [Hlen Hnth].
      { intros k Hk. specialize (Hin (S k)). simpl in Hin. lia. }
      split; [simpl; lia|].
      intros [|k] Hk; simpl.
      * rewrite Nat.add_0_r. symmetry. exact Hc.
      * rewrite Hnth by lia. f_equal. lia.
    + apply nth_error_None in Hc. specialize (Hin 0). lia.
Qed.

(** Within the budget the step is 1 and the loop copies the whole array. *)
Lemma loop_copies :
  (Z.of_nat (length coords) <= n)%Z ->
  Sampler.loop coords n 0 [] = coords.
Proof.
  intros Hle. rewrite loop_strideFrom. simpl.
  assert (Hstep : Sampler.step coords n = 1).
  { unfold Sampler.step.
    destruct (Z.eq_dec n 0) as [->|Hn0]; [rewrite Z.div_0_r; reflexivity|].
    assert (Z.of_nat (length coords) / n <= 1)%Z.
    { apply Z.div_le_upper_bound; lia. }
    lia. }
  rewrite Hstep, strideFrom_one by lia. reflexivity.
Qed.

(** Over the budget the step is the quotient, and [n] picks fit. *)
Lemma picks_in_range k :
  (1 <= n < Z.of_nat (length coords))%Z ->
  k < Z.to_nat n ->
  k * Z.to_nat (Z.max (Z.of_nat (length coords) / n) 1) < length coords.
Proof.
  intros Hn Hk.
  set (len := Z.of_nat (length coords)) in *.
  assert (Hq : (1 <= len / n)%Z) by (apply Z.div_le_lower_bound; lia).
  assert (Hm : (n * (len / n) <= len)%Z) by (apply Z.mul_div_le; lia).
  rewrite Z.max_l by lia.
  apply Nat2Z.inj_lt. rewrite Nat2Z.inj_mul, Z2Nat.id by lia.
  fold len. nia.
Qed.

End SamplerFacts.

(** C2: a coordinate list no longer than the budget comes back unchanged,
    every element in its original place. *)
Theorem sample_within_budget :
  forall (A : Type) (coords : list A) (n : Z),
    (1 <= n)%Z ->
    (Z.of_nat (length coords) <= n)%Z ->
    Simple.sampleCoordinates coords n = coords.
Proof.
  intros A coords n _ Hle. unfold Simple.sampleCoordinates.
  apply loop_copies. exact Hle.
Qed.

Lemma sample_within_budget_witness :
  Simple.sampleCoordinates ["a"; "b"; "c"]%string 5 = ["a"; "b"; "c"]%string.
Proof.
  apply (@sample_within_budget string ["a"; "b"; "c"]%string 5%Z); simpl; lia.
Defined.

(** C1: over the budget, sampling uses the stride
    [max (floor (len / budget)) 1], takes the elements at indices [0],
    [stride], [2 * stride], ... (all of them in range) and returns exactly
    [budget] of them; being a function of its input, it returns the same
    list on every call. *)
Theorem sample_over_budget :
  forall (A : Type) (coords : list A) (n : Z),
    (1 <= n)%Z ->
    (n < Z.of_nat (length coords))%Z ->
    let stride := Z.to_nat (Z.max (Z.of_nat (length coords) / n) 1) in
    Simple.sampleCoordinates coords n =
      Reference.strideFrom coords stride 0 (Z.to_nat n) /\
    length (Simple.sampleCoordinates coords n) = Z.to_nat n /\
    forall k, k < Z.to_nat n ->
      k * stride < length coords /\
      nth_error (Simple.sampleCoordinates coords n) k =
      nth_error coords (k * stride).
Proof.
  intros A coords n Hn Hlt stride.
  assert (Hsample : Simple.sampleCoordinates coords n =
                    Reference.strideFrom coords stride 0 (Z.to_nat n)).
  { unfold Simple.sampleCoordinates. rewrite loop_strideFrom. simpl.
    rewrite Z.sub_0_r. reflexivity. }
  assert (Hin : forall k, k < Z.to_nat n -> 0 + k * stride < length coords).
  { intros k Hk. simpl. apply picks_in_range; lia. }
  destruct (@strideFrom_picks A coords stride (Z.to_nat n) 0 Hin) as [Hlen Hnth].
  rewrite Hsample. repeat split.
  - exact Hlen.
  - apply (Hin k). assumption.
  - rewrite Hnth by assumption. reflexivity.
Qed.

Lemma sample_over_budget_witness :
  Simple.sampleCoordinates [0; 1; 2; 3; 4; 5; 6; 7; 8; 9] 3 = [0; 3; 6] /\
  length (Simple.sampleCoordinates [0; 1; 2; 3; 4; 5; 6; 7; 8; 9] 3) = 3.
Proof.
  destruct (@sample_over_budget nat [0; 1; 2; 3; 4; 5; 6; 7; 8; 9] 3%Z)
    as (Hpicks & Hlen & _); [lia | simpl; lia |].
  split; [exact Hpicks | exact Hlen].
Defined.

(** The fuller script returns early within the budget; the two samplers
    agree on every input. *)
Lemma sampleCoordinates_agree :
  forall (A : Type) (coords : list A) (n : Z),
    ToMockData.sampleCoordinates coords n = Simple.sampleCoordinates coords n.
Proof.
  intros A coords n. unfold ToMockData.sampleCoordinates, Simple.sampleCoordinates.
  destruct (Z.leb_spec (Z.of_nat (length coords)) n) as [Hle|Hgt].
  - symmetry. apply loop_copies. exact Hle.
  - reflexivity.
Qed.

(** ** Strings *)

Lemma startsWith_prefix s t :
  JsString.startsWith s t = true <-> exists rest, s = (t ++ rest)%string.
Proof.
  revert s. induction t as [|b t IH]; intros s; simpl.
  - split; [intros _; exists s; reflexivity | reflexivity].
  - destruct s as [|a s].
    + split; [discriminate | intros [rest H]; discriminate].
    + rewrite andb_true_iff, Ascii.eqb_eq, IH. split.
      * intros [-> [rest ->]]. exists rest. reflexivity.
      * intros [rest H]. injection H as -> ->. split; [reflexivity|].
        exists rest. reflexivity.
Qed.

Lemma includes_Contains s t :
  JsString.includes s t = true <-> Reference.Contains s t.
Proof.
  unfold Reference.Contains. induction s as [|a s IH]; simpl.
  - rewrite orb_false_r, startsWith_prefix. split.
    + intros [rest H]. exists EmptyString, rest. exact H.
    + intros [[|b before] [after H]]; [exists after; exact H | discriminate].
  - rewrite orb_true_iff, startsWith_prefix, IH. split.
    + intros [[rest H] | (before & after & H)].
      * exists EmptyString, rest. exact H.
      * exists (String a before), after. simpl. rewrite H. reflexivity.
    + intros [[|b before] [after H]].
      * left. exists after. exact H.
      * right. simpl in H. injection H as -> H.
        exists before, after. exact H.
Qed.

Lemma append_assoc (a b c : string) :
  ((a ++ b) ++ c = a ++ (b ++ c))%string.
Proof. induction a as [|x a IH]; simpl; [|rewrite IH]; reflexivity. Qed.

Lemma Contains_suffix s front t :
  Reference.Contains s (front ++ t) -> Reference.Contains s t.
Proof.
  intros (before & after & ->). exists (before ++ front)%string, after.
  rewrite !append_assoc. reflexivity.
Qed.

Lemma andb_spec_range (k : nat) :
  (65 <= k <= 90 /\ ((65 <=? k)%nat && (k <=? 90)%nat = true)) \/
  (~ (65 <= k <= 90) /\ ((65 <=? k)%nat && (k <=? 90)%nat = false)).
Proof.
  destruct (Nat.leb_spec 65 k), (Nat.leb_spec k 90); simpl;
    [left | right | right | right]; split; try reflexivity; lia.
Qed.

(** [toLowerCase] does what [foldsTo] says, character by character. *)
Lemma lowerChar_foldsTo c k :
  Reference.foldsTo c k <-> JsString.lowerChar c = k.
Proof.
  unfold Reference.foldsTo, JsString.lowerChar.
  destruct (andb_spec_range (nat_of_ascii c)) as [[Hin Hb] | [Hout Hb]];
    rewrite Hb.
  - split.
    + intros [[_ Hk] | [Hno _]]; [|contradiction].
      rewrite <- Hk. apply ascii_nat_embedding.
    + intros <-. left. split; [exact Hin|].
      apply nat_ascii_embedding. lia.
  - split.
    + intros [[Hyes _] | [_ Hk]]; [contradiction | symmetry; exact Hk].
    + intros <-. right. split; [exact Hout | reflexivity].
Qed.

Lemma spells_toLowerCase s word :
  Reference.spells s word <-> JsString.toLowerCase s = word.
Proof.
  revert word. induction s as [|c s IH]; intros [|k word]; simpl;
    try (split; [contradiction | discriminate]).
  - split; reflexivity.
  - rewrite lowerChar_foldsTo, IH. split.
    + intros [-> ->]. reflexivity.
    + intros H. injection H as -> ->. split; reflexivity.
Qed.

Lemma toLowerCase_app a b :
  JsString.toLowerCase (a ++ b) =
  (JsString.toLowerCase a ++ JsString.toLowerCase b)%string.
Proof. induction a as [|c a IH]; simpl; [|rewrite IH]; reflexivity. Qed.

Lemma toLowerCase_split s : forall x y,
  JsString.toLowerCase s = (x ++ y)%string ->
  exists s1 s2, s = (s1 ++ s2)%string /\
                JsString.toLowerCase s1 = x /\ JsString.toLowerCase s2 = y.
Proof.
  induction s as [|c s IH]; intros [|k x] y H; simpl in H.
  - exists EmptyString, EmptyString. repeat split. exact H.
  - discriminate.
  - exists EmptyString, (String c s). repeat split. exact H.
  - injection H as Hc Hs. destruct (IH _ _ Hs) as (s1 & s2 & -> & <- & <-).
    exists (String c s1), s2. simpl. rewrite Hc. repeat split.
Qed.

(** Occurring in some mix of cases is occurring in the lowercased text. *)
Lemma OccursIgnoringCase_Contains text word :
  Reference.OccursIgnoringCase text word <->
  Reference.Contains (JsString.toLowerCase text) word.
Proof.
  unfold Reference.OccursIgnoringCase, Reference.Contains. split.
  - intros (before & mid & after & -> & Hmid).
    apply spells_toLowerCase in Hmid.
    exists (JsString.toLowerCase before), (JsString.toLowerCase after).
    rewrite !toLowerCase_app, Hmid. reflexivity.
  - intros (x & z & H).
    destruct (toLowerCase_split _ _ _ H) as (before & rest & -> & _ & Hrest).
    destruct (toLowerCase_split _ _ _ Hrest) as (mid & after & -> & Hmid & _).
    exists before, mid, after. split; [reflexivity|].
    apply spells_toLowerCase. exact Hmid.
Qed.

Lemma includes_OccursIgnoringCase text word :
  JsString.includes (JsString.toLowerCase text) word = true <->
  Reference.OccursIgnoringCase text word.
Proof. rewrite includes_Contains, OccursIgnoringCase_Contains. reflexivity. Qed.

(** ** Classification of the query *)

Section Classification.
Import Environmental.

(** C3: the query is lowercased, so a keyword counts in any mix of upper
    and lower case, and the rules are tried in order: "forest" or
    "deforest" gives deforestation, otherwise "fire" gives wildfire,
    otherwise biodiversity; "Forest loss in Upper Peninsula" and "Wildfire
    risk in Michigan forests" are deforestation and "Biodiversity in
    Michigan wetlands" is biodiversity. *)
Theorem classification_rules :
  forall (query : string) (t : Instant),
    let category := Processed.category (fst (processWithGemini query t)) in
    let categoryOf text := Processed.category (fst (processWithGemini text t)) in
    let forested :=
      Reference.OccursIgnoringCase query "forest" \/
      Reference.OccursIgnoringCase query "deforest" in
    (forested -> category = deforestation) /\
    (~ forested -> Reference.OccursIgnoringCase query "fire" ->
     category = wildfire) /\
    (~ forested -> ~ Reference.OccursIgnoringCase query "fire" ->
     category = biodiversity) /\
    categoryOf "Forest loss in Upper Peninsula"%string = deforestation /\
    categoryOf "Wildfire risk in Michigan forests"%string = deforestation /\
    categoryOf "Biodiversity in Michigan wetlands"%string = biodiversity.
Proof.
  intros query t category categoryOf forested. subst forested.
  set (q := JsString.toLowerCase query).
  assert (Hcat : category =
    if JsString.includes q "forest" || JsString.includes q "deforest"
    then deforestation
    else if JsString.includes q "fire" || JsString.includes q "wildfire"
         then wildfire else biodiversity) by reflexivity.
  rewrite <- !includes_OccursIgnoringCase. fold q.
  repeat split; try reflexivity.
  - intros Hforest. rewrite Hcat.
    rewrite <- orb_true_iff in Hforest. rewrite Hforest. reflexivity.
  - intros Hnone Hfire. rewrite Hcat.
    rewrite <- orb_true_iff in Hnone.
    apply not_true_is_false in Hnone. rewrite Hnone, Hfire. reflexivity.
  - intros Hnone Hfire. rewrite Hcat.
    rewrite <- orb_true_iff in Hnone.
    apply not_true_is_false in Hnone. rewrite Hnone.
    destruct (JsString.includes q "fire") eqn:Hf; [contradiction Hfire; reflexivity|].
    destruct (JsString.includes q "wildfire") eqn:Hw; [|reflexivity].
    exfalso. apply includes_Contains in Hw.
    apply (@Contains_suffix q "wild" "fire") in Hw.
    apply includes_Contains in Hw. congruence.
Qed.

Lemma classification_rules_witness :
  Processed.category (fst (processWithGemini "CAMPFIRE Safety Rules" 0%Z))
  = wildfire.
Proof.
  destruct (classification_rules "CAMPFIRE Safety Rules" 0%Z)
    as (_ & Hfire & _).
  apply Hfire.
  - rewrite <- !includes_OccursIgnoringCase. vm_compute.
    intros [H | H]; discriminate H.
  - exists "CAMP"%string, "FIRE"%string, " Safety Rules"%string.
    split; [reflexivity|]. apply spells_toLowerCase. reflexivity.
Defined.

End Classification.

(** ** Synthesis of the visualizations *)

Lemma Forall2_map_r {A B} (R : A -> B -> Prop) (f : A -> B) (l : list A) :
  (forall x, R x (f x)) -> Forall2 R l (map f l).
Proof. intros HR. induction l; simpl; constructor; auto. Qed.

Lemma map_same {A} (f : A -> A) (l : list A) :
  (forall x, f x = x) -> map f l = l.
Proof. intros Hf. rewrite (map_ext f id Hf). apply map_id. Qed.

Section Synthesis.
Import Environmental.

Variable db : MockData.

(** C4: synthesis returns exactly three artifacts, one of each kind, in the
    order pinpoints, heatmap, numbers. *)
Theorem three_artifacts_in_order :
  forall (category : Category) (timeRange : option string) (t : Instant),
    let visualizations := fst (generateVisualizations db category timeRange t) in
    length visualizations = 3 /\
    map Visualization.type visualizations = [pinpoints; heatmap; numbers] /\
    exists points grid figures m1 m2 m3,
      visualizations = [
        {| Visualization.type := pinpoints;
           Visualization.data := PinpointData points;
           Visualization.metadata := m1 |};
        {| Visualization.type := heatmap;
           Visualization.data := HeatmapData grid;
           Visualization.metadata := m2 |};
        {| Visualization.type := numbers;
           Visualization.data := NumbersData figures;
           Visualization.metadata := m3 |} ].
Proof.
  intros category timeRange t visualizations.
  repeat split.
  do 6 eexists. reflexivity.
Qed.

(** The three payloads, for any category. *)
Lemma pinpoints_payload category t :
  Reference.pinpointsOf (fst (generateSingleVisualization db pinpoints category t))
  = Some (map (fun point => {|
      LocationPoint.lat := LocationPoint.lat point;
      LocationPoint.lng := LocationPoint.lng point;
      LocationPoint.name := LocationPoint.name point;
      LocationPoint.value :=
        match category with
        | wildfire => (LocationPoint.value point * 0.6)%float
        | _ => LocationPoint.value point
        end;
      LocationPoint.severity := LocationPoint.severity point |})
    (mockPinpointData db)).
Proof. reflexivity. Qed.

Lemma heatmap_payload category t :
  Reference.cellsOf (fst (generateSingleVisualization db heatmap category t))
  = Some (map (fun cell => {|
      HeatmapCell.lat := HeatmapCell.lat cell;
      HeatmapCell.lng := HeatmapCell.lng cell;
      HeatmapCell.intensity :=
        match category with
        | deforestation => (1 - HeatmapCell.intensity cell)%float
        | _ => HeatmapCell.intensity cell
        end;
      HeatmapCell.value := HeatmapCell.value cell |})
    (Heatmap.data (mockHeatmapData db))).
Proof. reflexivity. Qed.

Lemma numbers_payload category t :
  Reference.metricsOf (fst (generateSingleVisualization db numbers category t))
  = Some (map (fun metric => {|
      Metric.label := Metric.label metric;
      Metric.value := Metric.value metric;
      Metric.change :=
        match category with
        | wildfire => abs (Metric.change metric)
        | _ => Metric.change metric
        end |})
    (Numbers.keyMetrics (mockNumbersData db))).
Proof. reflexivity. Qed.

Lemma heatmap_inverted t :
  exists cells',
    Reference.cellsOf (fst (generateSingleVisualization db heatmap deforestation t))
      = Some cells' /\
    Forall2 Reference.inverted (Heatmap.data (mockHeatmapData db)) cells'.
Proof.
  eexists. split; [apply heatmap_payload|].
  apply Forall2_map_r. intros cell. repeat split.
Qed.

Lemma heatmap_unchanged category t :
  category <> deforestation ->
  Reference.cellsOf (fst (generateSingleVisualization db heatmap category t))
  = Some (Heatmap.data (mockHeatmapData db)).
Proof.
  intros Hc. rewrite heatmap_payload. f_equal. apply map_same.
  intros [lat lng intensity value]; destruct category;
    [contradiction | reflexivity | reflexivity].
Qed.

Lemma metrics_unchanged category t :
  category <> wildfire ->
  Reference.metricsOf (fst (generateSingleVisualization db numbers category t))
  = Some (Numbers.keyMetrics (mockNumbersData db)).
Proof.
  intros Hc. rewrite numbers_payload. f_equal. apply map_same.
  intros [label value change]; destruct category;
    [reflexivity | reflexivity | contradiction].
Qed.

Lemma pinpoints_unchanged category t :
  category <> wildfire ->
  Reference.pinpointsOf (fst (generateSingleVisualization db pinpoints category t))
  = Some (mockPinpointData db).
Proof.
  intros Hc. rewrite pinpoints_payload. f_equal. apply map_same.
  intros [lat lng name value severity]; destruct category;
    [reflexivity | reflexivity | contradiction].
Qed.

(** C5: for deforestation every heatmap cell's intensity becomes
    [1 - intensity], for the other categories the cells pass through
    unchanged; for deforestation the key metrics keep their changes, sign
    included, also at the end of a whole deforestation query. *)
Theorem deforestation_inverts_heatmap_keeps_metrics :
  forall (category : Category) (t : Instant),
    (exists cells',
       Reference.cellsOf
         (fst (generateSingleVisualization db heatmap category t)) = Some cells' /\
       (category = deforestation ->
        Forall2 Reference.inverted (Heatmap.data (mockHeatmapData db)) cells') /\
       (category <> deforestation ->
        cells' = Heatmap.data (mockHeatmapData db))) /\
    Reference.metricsOf
      (fst (generateSingleVisualization db numbers deforestation t))
      = Some (Numbers.keyMetrics (mockNumbersData db)) /\
    (forall (url : option string) (later : Instant -> Instant)
            (input : Query.t),
       Query.query input =
         "Deforestation trends in Michigan's Upper Peninsula"%string ->
       exists r v1 v2 v3 cells',
         fst (processQuery db url later input t) = inr r /\
         EnvironmentalResult.category r = deforestation /\
         EnvironmentalResult.visualizations r = [v1; v2; v3] /\
         Reference.cellsOf v2 = Some cells' /\
         Forall2 Reference.inverted (Heatmap.data (mockHeatmapData db)) cells' /\
         Reference.metricsOf v3 = Some (Numbers.keyMetrics (mockNumbersData db))).
Proof.
  intros category t. split; [|split].
  - eexists. split; [apply heatmap_payload|]. split.
    + intros ->. apply Forall2_map_r. intros cell. repeat split.
    + intros Hc. pose proof (heatmap_unchanged t Hc) as H.
      rewrite heatmap_payload in H. injection H as H. exact H.
  - apply metrics_unchanged. discriminate.
  - intros url later [query category' timeRange] Hq. simpl in Hq. subst query.
    destruct (heatmap_inverted (t + 1000 + 500)%Z) as (cells' & Hcells & Hinv).
    do 4 eexists. exists cells'.
    split; [reflexivity|]. split; [reflexivity|]. split; [reflexivity|].
    split; [exact Hcells|]. split; [exact Hinv|].
    apply metrics_unchanged. discriminate.
Qed.

(** C6: for wildfire every pinpoint's value is multiplied by 0.6 and every
    metric's change is replaced by its absolute value; for the other
    categories the points and the metrics pass through unchanged. *)
Theorem wildfire_dampens_values_unsigns_changes :
  forall (category : Category) (t : Instant),
    exists points' metrics',
      Reference.pinpointsOf
        (fst (generateSingleVisualization db pinpoints category t))
        = Some points' /\
      Reference.metricsOf
        (fst (generateSingleVisualization db numbers category t))
        = Some metrics' /\
      (category = wildfire ->
       Forall2 Reference.dampened (mockPinpointData db) points' /\
       Forall2 Reference.unsigned (Numbers.keyMetrics (mockNumbersData db))
               metrics') /\
      (category <> wildfire ->
       points' = mockPinpointData db /\
       metrics' = Numbers.keyMetrics (mockNumbersData db)).
Proof.
  intros category t. do 2 eexists.
  split; [apply pinpoints_payload|]. split; [apply numbers_payload|]. split.
  - intros ->. split; apply Forall2_map_r; intros x; repeat split.
  - intros Hc.
    pose proof (pinpoints_unchanged t Hc) as Hp.
    pose proof (metrics_unchanged t Hc) as Hm.
    rewrite pinpoints_payload in Hp. rewrite numbers_payload in Hm.
    injection Hp as Hp. injection Hm as Hm. split; assumption.
Qed.

(** C10: the pinpoints artifact of a synthesis holds as many points as the
    base dataset, in the same order, each with its lat, lng, name and
    severity unchanged; the value too is unchanged unless the category is
    wildfire. *)
Theorem pinpoints_frame :
  forall (category : Category) (timeRange : option string) (t : Instant),
    exists v points',
      nth_error (fst (generateVisualizations db category timeRange t)) 0
        = Some v /\
      Visualization.type v = pinpoints /\
      Reference.pinpointsOf v = Some points' /\
      length points' = length (mockPinpointData db) /\
      Forall2 Reference.sameButValue (mockPinpointData db) points' /\
      (category <> wildfire ->
       Forall2 (fun point point' =>
                  LocationPoint.value point' = LocationPoint.value point)
               (mockPinpointData db) points').
Proof.
  intros category timeRange t. do 2 eexists.
  split; [reflexivity|]. split; [reflexivity|].
  split; [apply pinpoints_payload|].
  split; [apply length_map|].
  split.
  - apply Forall2_map_r. intros point. repeat split.
  - intros Hc. apply Forall2_map_r. intros point.
    destruct category; [reflexivity | reflexivity | contradiction].
Qed.

End Synthesis.

(** The theorems above at the datasets the module starts with. *)

Lemma deforestation_inverts_heatmap_keeps_metrics_witness :
  Reference.cellsOf
    (fst (Environmental.generateSingleVisualization
            (Environmental.initialMockData (fun _ => 0.25%float)
                                           (fun _ => 40%float))
            Environmental.heatmap Environmental.wildfire 0%Z))
  = Some (Environmental.Heatmap.data
            (Environmental.initialHeatmapData (fun _ => 0.25%float)
                                              (fun _ => 40%float))).
Proof.
  destruct (deforestation_inverts_heatmap_keeps_metrics
              (Environmental.initialMockData (fun _ => 0.25%float)
                                             (fun _ => 40%float))
              Environmental.wildfire 0%Z)
    as ((cells' & Hcells & _ & Hsame) & _).
  rewrite Hcells. f_equal. apply Hsame. discriminate.
Defined.

Lemma wildfire_dampens_values_unsigns_changes_witness :
  exists points',
    Reference.pinpointsOf
      (fst (Environmental.generateSingleVisualization
              (Environmental.initialMockData (fun _ => 0.25%float)
                                             (fun _ => 40%float))
              Environmental.pinpoints Environmental.wildfire 0%Z))
    = Some points' /\
    Forall2 Reference.dampened Environmental.initialPinpointData points'.
Proof.
  destruct (wildfire_dampens_values_unsigns_changes
              (Environmental.initialMockData (fun _ => 0.25%float)
                                             (fun _ => 40%float))
              Environmental.wildfire 0%Z)
    as (points' & metrics' & Hpoints & _ & Hwild & _).
  exists points'. split; [exact Hpoints|].
  apply Hwild. reflexivity.
Defined.

Lemma pinpoints_frame_witness :
  exists v points',
    nth_error
      (fst (Environmental.generateVisualizations
              (Environmental.initialMockData (fun _ => 0.25%float)
                                             (fun _ => 40%float))
              Environmental.biodiversity None 0%Z)) 0 = Some v /\
    Reference.pinpointsOf v = Some points' /\
    Forall2 (fun point point' =>
               Environmental.LocationPoint.value point' =
               Environmental.LocationPoint.value point)
            Environmental.initialPinpointData points'.
Proof.
  destruct (pinpoints_frame
              (Environmental.initialMockData (fun _ => 0.25%float)
                                             (fun _ => 40%float))
              Environmental.biodiversity None 0%Z)
    as (v & points' & Hv & _ & Hpoints & _ & _ & Hvalue).
  exists v, points'. split; [exact Hv|]. split; [exact Hpoints|].
  apply Hvalue. discriminate.
Defined.

(** Wildfire at the first mock point: 85 * 0.6 is 51; and the first mock
    metric, -2.3, becomes 2.3. *)
Example wildfire_first_point :
  option_map (map Environmental.LocationPoint.value)
    (Reference.pinpointsOf
       (fst (Environmental.generateSingleVisualization
               (Environmental.initialMockData (fun _ => 0.25%float)
                                              (fun _ => 40%float))
               Environmental.pinpoints Environmental.wildfire 0%Z)))
  = Some [51; 39; 24; 45; 54]%float.
Proof. vm_compute. reflexivity. Qed.

Example wildfire_metric_changes :
  option_map (map Environmental.Metric.change)
    (Reference.metricsOf
       (fst (Environmental.generateSingleVisualization
               (Environmental.initialMockData (fun _ => 0.25%float)
                                              (fun _ => 40%float))
               Environmental.numbers Environmental.wildfire 0%Z)))
  = Some [2.3; 0.8; 1.2; 3.0]%float.
Proof. vm_compute. reflexivity. Qed.

(** ** Extraction of coordinates *)

Section Extraction.
Import GeoJson.

Lemma forEach_app {A S} (xs ys : list A) (cb : A -> S -> Js.result S) (s : S) :
  Js.forEach (xs ++ ys) cb s = Js.bind (Js.forEach xs cb s) (Js.forEach ys cb).
Proof.
  revert s. induction xs as [|x xs IH]; intros s; simpl; [reflexivity|].
  destruct (cb x s) as [s'|e]; simpl; [apply IH | reflexivity].
Qed.

(** A callback that appends [f x] for every element appends the
    concatenation. *)
Lemma forEach_appends {A B C} (enc : A -> C) (f : A -> list B)
  (cb : C -> list B -> Js.result (list B)) (xs : list A) (acc : list B) :
  (forall x acc', cb (enc x) acc' = Js.Ok (acc' ++ f x)) ->
  Js.forEach (map enc xs) cb acc = Js.Ok (acc ++ concat (map f xs)).
Proof.
  intros Hcb. revert acc. induction xs as [|x xs IH]; intros acc; simpl.
  - rewrite app_nil_r. reflexivity.
  - rewrite Hcb. simpl. rewrite IH, app_assoc. reflexivity.
Qed.

Lemma concat_map_singleton {A B} (f : A -> B) (xs : list A) :
  concat (map (fun x => [f x]) xs) = map f xs.
Proof. induction xs as [|x xs IH]; simpl; [|rewrite IH]; reflexivity. Qed.

Lemma visit_ring label ring acc :
  forEachArr (Reference.linearRing ring) (pushPoint label) acc =
  Js.Ok (acc ++ map (Reference.extracted label) ring).
Proof.
  unfold Reference.linearRing, forEachArr.
  rewrite (forEach_appends Reference.position
             (fun p => [Reference.extracted label p])).
  - rewrite concat_map_singleton. reflexivity.
  - intros p acc'. reflexivity.
Qed.

Lemma visit_polygon label rings acc :
  forEachArr (Reference.polygon rings)
    (fun ring => forEachArr ring (pushPoint label)) acc =
  Js.Ok (acc ++ map (Reference.extracted label) (concat rings)).
Proof.
  unfold Reference.polygon, forEachArr at 1.
  rewrite (forEach_appends Reference.linearRing
             (map (Reference.extracted label))).
  - rewrite <- concat_map. reflexivity.
  - intros ring acc'. apply visit_ring.
Qed.

Lemma visit_multiPolygon label polys acc :
  forEachArr (Reference.multiPolygon polys)
    (fun poly => forEachArr poly
       (fun ring => forEachArr ring (pushPoint label))) acc =
  Js.Ok (acc ++ map (Reference.extracted label) (concat (concat polys))).
Proof.
  unfold Reference.multiPolygon, forEachArr at 1.
  rewrite (forEach_appends Reference.polygon
             (fun rings => map (Reference.extracted label) (concat rings))).
  - f_equal. f_equal. induction polys as [|rings polys IH]; simpl.
    + reflexivity.
    + rewrite IH, concat_app, map_app. reflexivity.
  - intros rings acc'. apply visit_polygon.
Qed.

Lemma length_concat_uniform {A} (ls : list (list A)) n :
  Forall (fun l => length l = n) ls -> length (concat ls) = length ls * n.
Proof.
  induction 1 as [|l ls Hl _ IH]; simpl; [reflexivity|].
  rewrite length_app, IH, Hl. reflexivity.
Qed.

Lemma extract_snoc before feature coords :
  Simple.extractCoordinates {| features := Some before |} = Js.Ok coords ->
  Simple.extractCoordinates {| features := Some (before ++ [feature]) |} =
  visitFeature Simple.labelOf feature coords.
Proof.
  unfold Simple.extractCoordinates; simpl. intros Hbefore.
  rewrite forEach_app, Hbefore. simpl.
  destruct (visitFeature Simple.labelOf feature coords); reflexivity.
Qed.

(** C7: a MultiPolygon of [k] polygons of [m] rings of [n] vertices adds
    exactly [k * m * n] points, a Polygon every vertex of every ring and a
    Point one point; each point stores the input's second component as
    [lat] and its first as [lng]. *)
Theorem extraction_counts_and_swaps :
  forall (props : option Json) (before : list Feature)
         (coords : list Coordinate),
    Simple.extractCoordinates {| features := Some before |} = Js.Ok coords ->
    let label := Simple.labelOf {| properties := props; geometry := None |} in
    let extract feature :=
      Simple.extractCoordinates {| features := Some (before ++ [feature]) |} in
    (forall (polys : list (list (list (float * float)))) (k m n : nat),
       length polys = k ->
       Forall (fun rings => length rings = m) polys ->
       Forall (Forall (fun ring => length ring = n)) polys ->
       exists points,
         extract (Reference.feature props "MultiPolygon"
                    (Reference.multiPolygon polys))
           = Js.Ok (coords ++ points) /\
         length points = k * m * n /\
         points = map (Reference.extracted label) (concat (concat polys))) /\
    (forall rings : list (list (float * float)),
       extract (Reference.feature props "Polygon" (Reference.polygon rings))
         = Js.Ok (coords ++ map (Reference.extracted label) (concat rings))) /\
    (forall p : float * float,
       extract (Reference.feature props "Point" (Reference.position p))
         = Js.Ok (coords ++ [Reference.extracted label p])).
Proof.
  intros props before coords Hbefore label extract. subst extract.
  split; [|split].
  - intros polys k m n Hk Hm Hn.
    exists (map (Reference.extracted label) (concat (concat polys))).
    split; [|split; [|reflexivity]].
    + rewrite extract_snoc with (coords := coords) by exact Hbefore. apply visit_multiPolygon.
    + rewrite length_map.
      rewrite (length_concat_uniform (n := n)) by (apply Forall_concat; exact Hn).
      rewrite (length_concat_uniform Hm), Hk. reflexivity.
  - intros rings. rewrite extract_snoc with (coords := coords) by exact Hbefore. apply visit_polygon.
  - intros p. rewrite extract_snoc with (coords := coords) by exact Hbefore. reflexivity.
Qed.

(** A feature whose geometry type is none of the three leaves the
    collected points as they are. *)
Lemma visit_unsupported labelOf feature g coords :
  geometry feature = Some g ->
  type g <> "Polygon"%string ->
  type g <> "MultiPolygon"%string ->
  type g <> "Point"%string ->
  visitFeature labelOf feature coords = Js.Ok coords.
Proof.
  intros Hg Hpolygon Hmulti Hpoint. unfold visitFeature. rewrite Hg.
  apply String.eqb_neq in Hpolygon, Hmulti, Hpoint.
  rewrite Hpolygon, Hmulti, Hpoint. reflexivity.
Qed.

(** C8, as the code has it: a feature whose geometry type is not Point,
    Polygon or MultiPolygon is skipped without any error; the extraction
    gives what it gives for the dataset without that feature. *)
Theorem unsupported_geometry_skipped :
  forall (before after : list Feature) (feature : Feature) (g : Geometry),
    geometry feature = Some g ->
    type g <> "Point"%string ->
    type g <> "Polygon"%string ->
    type g <> "MultiPolygon"%string ->
    Simple.extractCoordinates
      {| features := Some (before ++ feature :: after) |} =
    Simple.extractCoordinates {| features := Some (before ++ after) |}.
Proof.
  intros before after feature g Hg Hpoint Hpolygon Hmulti.
  unfold Simple.extractCoordinates; simpl.
  rewrite !forEach_app. simpl.
  destruct (Js.forEach before (visitFeature Simple.labelOf) []) as [coords|e];
    simpl; [|reflexivity].
  rewrite (visit_unsupported Simple.labelOf feature coords Hg) by assumption.
  reflexivity.
Qed.

End Extraction.

Lemma extraction_counts_and_swaps_witness :
  Simple.extractCoordinates
    {| GeoJson.features := Some [
         Reference.feature
           (Some (GeoJson.JObj [("FieldName"%string, GeoJson.JStr "Field A")]))
           "MultiPolygon"
           (Reference.multiPolygon
              [[[(-84.5, 45.1); (-84.6, 45.2)]]; [[(-83.0, 42.3); (-83.1, 42.4)]]]%float) ] |}
  = Js.Ok (map (Reference.extracted (Some (GeoJson.JStr "Field A")))
             [(-84.5, 45.1); (-84.6, 45.2); (-83.0, 42.3); (-83.1, 42.4)]%float).
Proof.
  destruct (@extraction_counts_and_swaps
              (Some (GeoJson.JObj [("FieldName"%string, GeoJson.JStr "Field A")]))
              [] [] eq_refl) as (Hmulti & _ & _).
  destruct (Hmulti
              [[[(-84.5, 45.1); (-84.6, 45.2)]]; [[(-83.0, 42.3); (-83.1, 42.4)]]]%float
              2 1 2 eq_refl)
    as (points & Hextract & Hlength & Hpoints).
  - repeat constructor.
  - repeat constructor.
  - simpl app in Hextract. rewrite Hextract, Hpoints. reflexivity.
Defined.

Lemma unsupported_geometry_skipped_witness :
  Simple.extractCoordinates
    {| GeoJson.features := Some [
         Reference.feature None "LineString"
           (Reference.linearRing [(-84.5, 45.1); (-84.6, 45.2)]%float);
         Reference.feature None "Point"
           (Reference.position (-83.0, 42.3)%float) ] |}
  = Simple.extractCoordinates
      {| GeoJson.features := Some [
           Reference.feature None "Point"
             (Reference.position (-83.0, 42.3)%float) ] |}.
Proof.
  apply (@unsupported_geometry_skipped []
           [Reference.feature None "Point"
              (Reference.position (-83.0, 42.3)%float)]
           (Reference.feature None "LineString"
              (Reference.linearRing [(-84.5, 45.1); (-84.6, 45.2)]%float))
           {| GeoJson.type := "LineString";
              GeoJson.coordinates :=
                Reference.linearRing [(-84.5, 45.1); (-84.6, 45.2)]%float |});
    [reflexivity | discriminate | discriminate | discriminate].
Defined.

(** C8, as stated, fails: a LineString feature raises no error; it is left
    out and the Point after it is still extracted. *)
Lemma unsupported_geometry_not_rejected :
  Simple.extractCoordinates
    {| GeoJson.features := Some [
         Reference.feature None "LineString"
           (Reference.linearRing [(-84.5, 45.1); (-84.6, 45.2)]%float) ] |}
  = Js.Ok [] /\
  Simple.extractCoordinates
    {| GeoJson.features := Some [
         Reference.feature None "LineString"
           (Reference.linearRing [(-84.5, 45.1); (-84.6, 45.2)]%float);
         Reference.feature None "Point"
           (Reference.position (-83.0, 42.3)%float) ] |}
  = Js.Ok [Reference.extracted (Some (GeoJson.JStr "Unknown"))
             (-83.0, 42.3)%float].
Proof. split; reflexivity. Qed.

(** ** Labels *)

Section Labels.
Import GeoJson.

(** Both scripts take a truthy [FieldName] first. *)
Lemma label_from_FieldName feature v :
  optGet (properties feature) "FieldName" = Some v ->
  truthy v = true ->
  Simple.labelOf feature = Some v /\ ToMockData.labelOf feature = Some v.
Proof.
  intros Hget Htruthy. unfold Simple.labelOf, ToMockData.labelOf.
  rewrite Hget.
  split; cbn; rewrite Htruthy; cbn; rewrite ?Htruthy; reflexivity.
Qed.

(** Without a [FieldName] the simple script answers "Unknown" whatever else
    the properties hold. *)
Lemma simple_label_without_FieldName feature :
  optGet (properties feature) "FieldName" = None ->
  Simple.labelOf feature = Some (JStr "Unknown").
Proof. intros Hget. unfold Simple.labelOf. rewrite Hget. reflexivity. Qed.

(** Without a [FieldName] the fuller script takes a truthy [name]. *)
Lemma toMockData_label_from_name feature v :
  optGet (properties feature) "FieldName" = None ->
  optGet (properties feature) "name" = Some v ->
  truthy v = true ->
  ToMockData.labelOf feature = Some v.
Proof.
  intros Hfield Hname Htruthy. unfold ToMockData.labelOf.
  rewrite Hfield, Hname. cbn. rewrite Htruthy. cbn. rewrite ?Htruthy.
  reflexivity.
Qed.

(** C9 at a feature with a [name] and no [FieldName]: the simple script
    labels its point "Unknown", the fuller script labels it with the name. *)
Theorem name_property_ignored :
  Simple.extractCoordinates
    {| features := Some [
         Reference.feature (Some (JObj [("name"%string, JStr "Lake")]))
           "Point" (Reference.position (-84.5, 45.1)%float) ] |}
  = Js.Ok [Reference.extracted (Some (JStr "Unknown")) (-84.5, 45.1)%float] /\
  ToMockData.extractCoordinates
    {| features := Some [
         Reference.feature (Some (JObj [("name"%string, JStr "Lake")]))
           "Point" (Reference.position (-84.5, 45.1)%float) ] |}
  = Js.Ok [Reference.extracted (Some (JStr "Lake")) (-84.5, 45.1)%float].
Proof. split; reflexivity. Qed.

End Labels.

(** ** Inputs on which the extraction throws *)

(** A feature whose geometry is [null] stops the whole extraction: the read
    of [geometry.type] throws. *)
Example null_geometry_throws :
  Simple.extractCoordinates
    {| GeoJson.features := Some [
         Reference.feature None "Point" (Reference.position (-83.0, 42.3)%float);
         {| GeoJson.properties := None; GeoJson.geometry := None |} ] |}
  = Js.Throw Js.TypeError.
Proof. reflexivity. Qed.

(** A Polygon whose coordinates are one ring, not a list of rings: the
    inner [forEach] is called on a position and the pattern [[lng, lat]] on
    a number. *)
Example shallow_polygon_throws :
  Simple.extractCoordinates
    {| GeoJson.features := Some [
         Reference.feature None "Polygon"
           (Reference.linearRing [(-84.5, 45.1); (-84.6, 45.2)]%float) ] |}
  = Js.Throw Js.TypeError.
Proof. reflexivity. Qed.

(** * Further properties *)

(** ** The sampler on any budget *)

Section SamplerBounds.

Context {A : Type}.
Variable coords : list A.

Lemma Subsequence_nil_l (l : list A) : Reference.Subsequence [] l.
Proof. induction l; constructor; assumption. Qed.

Lemma Subsequence_skipn (l l' : list A) k :
  Reference.Subsequence l (skipn k l') -> Reference.Subsequence l l'.
Proof.
  revert l'. induction k as [|k IH]; intros [|x l'] H; simpl in H;
    try exact H.
  constructor. apply IH. exact H.
Qed.

Lemma Subsequence_length (l l' : list A) :
  Reference.Subsequence l l' -> length l <= length l'.
Proof. induction 1; simpl; lia. Qed.

Lemma strideFrom_length_le step i count :
  length (Reference.strideFrom coords step i count) <= count.
Proof.
  revert i. induction count as [|count IH]; intros i; simpl; [lia|].
  destruct (nth_error coords i); simpl; [specialize (IH (i + step))|]; lia.
Qed.

Lemma strideFrom_Subsequence step i count :
  0 < step ->
  Reference.Subsequence (Reference.strideFrom coords step i count)
                        (skipn i coords).
Proof.
  intros Hstep. revert i. induction count as [|count IH]; intros i; simpl.
  - apply Subsequence_nil_l.
  - destruct (nth_error coords i) as [c|] eqn:Hc.
    + rewrite (skipn_nth_error _ _ Hc). apply Reference.Subsequence_take.
      apply Subsequence_skipn with (k := step - 1).
      rewrite skipn_skipn.
      replace (step - 1 + S i) with (i + step) by lia.
      apply IH.
    + apply Subsequence_nil_l.
Qed.

Lemma strideFrom_firstn i count :
  Reference.strideFrom coords 1 i count = firstn count (skipn i coords).
Proof.
  revert i. induction count as [|count IH]; intros i; simpl; [reflexivity|].
  destruct (nth_error coords i) as [c|] eqn:Hc.
  - rewrite (skipn_nth_error _ _ Hc). simpl. rewrite IH, Nat.add_1_r.
    reflexivity.
  - apply nth_error_None in Hc. rewrite skipn_all2 by lia. reflexivity.
Qed.

Lemma step_positive n : 0 < Sampler.step coords n.
Proof. unfold Sampler.step. lia. Qed.

Lemma sample_strideFrom n :
  Simple.sampleCoordinates coords n =
  Reference.strideFrom coords (Sampler.step coords n) 0 (Z.to_nat n).
Proof.
  unfold Simple.sampleCoordinates. rewrite loop_strideFrom. simpl.
  rewrite Z.sub_0_r. reflexivity.
Qed.

Lemma sample_nonpositive n :
  (n <= 0)%Z -> Simple.sampleCoordinates coords n = [].
Proof.
  intros Hn. rewrite sample_strideFrom.
  replace (Z.to_nat n) with 0 by lia. reflexivity.
Qed.

(** Whatever the budget, the sample never holds more points than the
    budget, nor more than the input. *)
Theorem sample_length_bounds :
  forall n : Z,
    length (Simple.sampleCoordinates coords n) <= Z.to_nat n /\
    length (Simple.sampleCoordinates coords n) <= length coords.
Proof.
  intros n. rewrite sample_strideFrom. split.
  - apply strideFrom_length_le.
  - apply Subsequence_length.
    apply (@strideFrom_Subsequence _ 0 (Z.to_nat n) (step_positive n)).
Qed.

(** Whatever the budget, the sample is the input with some points left
    out: nothing is added, repeated or reordered. *)
Theorem sample_is_subsequence :
  forall n : Z,
    Reference.Subsequence (Simple.sampleCoordinates coords n) coords.
Proof.
  intros n. rewrite sample_strideFrom.
  apply (@strideFrom_Subsequence _ 0 (Z.to_nat n) (step_positive n)).
Qed.

(** A budget that is zero or negative gives the empty sample, in both
    scripts; no error is raised. *)
Theorem sample_nonpositive_budget :
  forall n : Z,
    (n <= 0)%Z ->
    Simple.sampleCoordinates coords n = [] /\
    ToMockData.sampleCoordinates coords n = [].
Proof.
  intros n Hn. split; [apply sample_nonpositive; exact Hn|].
  unfold ToMockData.sampleCoordinates.
  destruct (Z.leb_spec (Z.of_nat (length coords)) n) as [Hle|Hgt].
  - destruct coords; [reflexivity | simpl in Hle; lia].
  - apply sample_nonpositive. exact Hn.
Qed.

(** When the input is longer than the budget but shorter than twice the
    budget, the stride is 1 and the sample is the first [n] points: the
    points after them are never taken. *)
Theorem sample_below_twice_budget :
  forall n : Z,
    (n < Z.of_nat (length coords) < 2 * n)%Z ->
    Simple.sampleCoordinates coords n = firstn (Z.to_nat n) coords.
Proof.
  intros n [Hlo Hhi]. rewrite sample_strideFrom.
  assert (Hstep : Sampler.step coords n = 1).
  { unfold Sampler.step.
    assert (1 <= Z.of_nat (length coords) / n)%Z
      by (apply Z.div_le_lower_bound; lia).
    assert (Z.of_nat (length coords) / n < 2)%Z
      by (apply Z.div_lt_upper_bound; lia).
    lia. }
  rewrite Hstep, strideFrom_firstn. reflexivity.
Qed.

(** Sampling a sample again with the same budget changes nothing. *)
Theorem sample_idempotent :
  forall n : Z,
    Simple.sampleCoordinates (Simple.sampleCoordinates coords n) n =
    Simple.sampleCoordinates coords n.
Proof.
  intros n. destruct (Z.le_gt_cases n 0) as [Hn|Hn].
  - rewrite (sample_nonpositive Hn).
    unfold Simple.sampleCoordinates. rewrite loop_strideFrom.
    rewrite strideFrom_past_end by (simpl; lia). reflexivity.
  - unfold Simple.sampleCoordinates at 1. apply loop_copies.
    pose proof (strideFrom_length_le (Sampler.step coords n) 0 (Z.to_nat n)).
    rewrite sample_strideFrom. lia.
Qed.

End SamplerBounds.

Lemma sample_nonpositive_budget_witness :
  Simple.sampleCoordinates [1; 2; 3] 0 = [] /\
  ToMockData.sampleCoordinates [1; 2; 3] 0 = [].
Proof. apply (@sample_nonpositive_budget nat [1; 2; 3] 0%Z). lia. Defined.

Lemma sample_below_twice_budget_witness :
  Simple.sampleCoordinates [0; 1; 2; 3; 4; 5; 6] 4 = [0; 1; 2; 3].
Proof.
  apply (@sample_below_twice_budget nat [0; 1; 2; 3; 4; 5; 6] 4%Z).
  simpl. lia.
Defined.

(** ** Extraction as a gathering of vertices *)

Section ExtractionShape.
Import GeoJson.

Lemma bind_Ok_r {T} (r : Js.result T) : Js.bind r (fun x => Js.Ok x) = r.
Proof. destruct r; reflexivity. Qed.

(** A loop whose callback appends the images of what [g] reads appends
    the images of all that [collect g] gathers. *)
Lemma forEach_collect {X P B} (g : X -> Js.result (list P)) (h : P -> B)
  (cb : X -> list B -> Js.result (list B)) :
  (forall x acc, cb x acc = (ps <- g x ;; Js.Ok (acc ++ map h ps))) ->
  forall xs acc,
    Js.forEach xs cb acc =
    (ps <- Reference.collect g xs ;; Js.Ok (acc ++ map h ps)).
Proof.
  intros Hcb. induction xs as [|x xs IH]; intros acc; simpl.
  - rewrite app_nil_r. reflexivity.
  - rewrite Hcb. destruct (g x) as [ps|e]; simpl; [|reflexivity].
    rewrite IH. destruct (Reference.collect g xs) as [qs|e]; simpl;
      [|reflexivity].
    rewrite map_app, app_assoc. reflexivity.
Qed.

Lemma pushPoint_vertex label pos acc :
  pushPoint label pos acc =
  (ps <- Reference.positionVertex pos ;;
   Js.Ok (acc ++ map (Reference.labelled label) ps)).
Proof. destruct pos; reflexivity. Qed.

Lemma ring_vertices label ring acc :
  forEachArr ring (pushPoint label) acc =
  (ps <- Reference.ringVertices ring ;;
   Js.Ok (acc ++ map (Reference.labelled label) ps)).
Proof.
  destruct ring as [x|xs]; [reflexivity|]. simpl.
  apply forEach_collect. intros pos acc'. apply pushPoint_vertex.
Qed.

Lemma polygon_vertices label poly acc :
  forEachArr poly (fun ring => forEachArr ring (pushPoint label)) acc =
  (ps <- Reference.polygonVertices poly ;;
   Js.Ok (acc ++ map (Reference.labelled label) ps)).
Proof.
  destruct poly as [x|rings]; [reflexivity|]. simpl.
  apply forEach_collect. intros ring acc'. apply ring_vertices.
Qed.

Lemma multiPolygon_vertices label multi acc :
  forEachArr multi
    (fun poly => forEachArr poly
       (fun ring => forEachArr ring (pushPoint label))) acc =
  (ps <- Reference.multiPolygonVertices multi ;;
   Js.Ok (acc ++ map (Reference.labelled label) ps)).
Proof.
  destruct multi as [x|polys]; [reflexivity|]. simpl.
  apply forEach_collect. intros poly acc'. apply polygon_vertices.
Qed.

Lemma visitFeature_points labelOf feature acc :
  visitFeature labelOf feature acc =
  (ps <- Reference.featurePoints labelOf feature ;; Js.Ok (acc ++ ps)).
Proof.
  unfold visitFeature, Reference.featurePoints, Reference.featureVertices.
  destruct (geometry feature) as [g|]; [|reflexivity].
  destruct (type g =? "Polygon")%string.
  { rewrite polygon_vertices.
    destruct (Reference.polygonVertices (coordinates g)); reflexivity. }
  destruct (type g =? "MultiPolygon")%string.
  { rewrite multiPolygon_vertices.
    destruct (Reference.multiPolygonVertices (coordinates g)); reflexivity. }
  destruct (type g =? "Point")%string.
  { rewrite pushPoint_vertex.
    destruct (Reference.positionVertex (coordinates g)); reflexivity. }
  simpl. rewrite app_nil_r. reflexivity.
Qed.

Lemma forEach_features labelOf fs :
  Js.forEach fs (visitFeature labelOf) [] =
  Reference.collect (Reference.featurePoints labelOf) fs.
Proof.
  rewrite (forEach_collect (Reference.featurePoints labelOf) id).
  - destruct (Reference.collect (Reference.featurePoints labelOf) fs);
      simpl; [rewrite map_id|]; reflexivity.
  - intros f acc. rewrite visitFeature_points.
    destruct (Reference.featurePoints labelOf f); simpl;
      [rewrite map_id|]; reflexivity.
Qed.

Lemma collect_app {X P} (g : X -> Js.result (list P)) xs ys :
  Reference.collect g (xs ++ ys) =
  (ps <- Reference.collect g xs ;; qs <- Reference.collect g ys ;;
   Js.Ok (ps ++ qs)).
Proof.
  induction xs as [|x xs IH]; simpl.
  - symmetry. apply bind_Ok_r.
  - destruct (g x) as [ps|e]; simpl; [|reflexivity]. rewrite IH.
    destruct (Reference.collect g xs) as [qs|e]; simpl; [|reflexivity].
    destruct (Reference.collect g ys) as [rs|e]; simpl; [|reflexivity].
    rewrite app_assoc. reflexivity.
Qed.

Lemma collect_throws {X P} (g : X -> Js.result (list P)) xs x e :
  In x xs -> g x = Js.Throw e -> Reference.collect g xs = Js.Throw Js.TypeError.
Proof.
  intros Hin Hx. induction xs as [|y xs IH]; [contradiction|]. simpl.
  destruct Hin as [->|Hin].
  - rewrite Hx. destruct e. reflexivity.
  - destruct (g y) as [ps|[]]; simpl; [|reflexivity].
    rewrite (IH Hin). reflexivity.
Qed.

Lemma collect_Forall {X P} (g : X -> Js.result (list P)) (Q : P -> Prop) xs :
  (forall x ps, g x = Js.Ok ps -> Forall Q ps) ->
  forall out, Reference.collect g xs = Js.Ok out -> Forall Q out.
Proof.
  intros Hg. induction xs as [|x xs IH]; simpl; intros out Hout.
  - injection Hout as <-. constructor.
  - destruct (g x) as [ps|e] eqn:Hx; simpl in Hout; [|discriminate].
    destruct (Reference.collect g xs) as [qs|e]; simpl in Hout;
      [|discriminate].
    injection Hout as <-. apply Forall_app. split; [eapply Hg; eassumption|].
    apply IH. reflexivity.
Qed.

Lemma collect_ext {X P} (g g' : X -> Js.result (list P)) xs :
  Forall (fun x => g x = g' x) xs ->
  Reference.collect g xs = Reference.collect g' xs.
Proof.
  induction 1 as [|x xs Hx _ IH]; simpl; [reflexivity|].
  rewrite Hx, IH. reflexivity.
Qed.

Lemma positions_of_collect labelOf fs :
  Reference.positionsOf
    (Reference.collect (Reference.featurePoints labelOf) fs) =
  Reference.collect Reference.featureVertices fs.
Proof.
  unfold Reference.positionsOf. induction fs as [|f fs IH]; simpl;
    [reflexivity|].
  unfold Reference.featurePoints at 1.
  destruct (Reference.featureVertices f) as [ps|e]; simpl; [|reflexivity].
  destruct (Reference.collect (Reference.featurePoints labelOf) fs) as [qs|e];
    simpl in *.
  - destruct (Reference.collect Reference.featureVertices fs) as [vs|e];
      [|discriminate].
    injection IH as IH. simpl. rewrite map_app, IH, map_map. simpl.
    rewrite map_ext with (g := id) by (intros []; reflexivity).
    rewrite map_id. reflexivity.
  - destruct (Reference.collect Reference.featureVertices fs) as [vs|e'];
      [discriminate|]. simpl. injection IH as ->. reflexivity.
Qed.

End ExtractionShape.

(** ** Extraction over whole datasets *)

Section ExtractionFacts.
Import GeoJson.

Lemma simple_extract_collect fs :
  Simple.extractCoordinates {| features := Some fs |} =
  Reference.collect (Reference.featurePoints Simple.labelOf) fs.
Proof. apply forEach_features. Qed.

Lemma toMockData_extract_collect fs :
  ToMockData.extractCoordinates {| features := Some fs |} =
  Reference.collect (Reference.featurePoints ToMockData.labelOf) fs.
Proof. apply forEach_features. Qed.

(** Extracting a dataset made of two parts is extracting the first part,
    then the second, and joining the points; a throw in either part is the
    outcome of the whole, the first part's throw first. *)
Theorem extraction_of_concatenation :
  forall fs1 fs2 : list Feature,
    Simple.extractCoordinates {| features := Some (fs1 ++ fs2) |} =
      (c1 <- Simple.extractCoordinates {| features := Some fs1 |} ;;
       c2 <- Simple.extractCoordinates {| features := Some fs2 |} ;;
       Js.Ok (c1 ++ c2)) /\
    ToMockData.extractCoordinates {| features := Some (fs1 ++ fs2) |} =
      (c1 <- ToMockData.extractCoordinates {| features := Some fs1 |} ;;
       c2 <- ToMockData.extractCoordinates {| features := Some fs2 |} ;;
       Js.Ok (c1 ++ c2)).
Proof.
  intros fs1 fs2.
  rewrite !simple_extract_collect, !toMockData_extract_collect.
  split; apply collect_app.
Qed.

(** One feature whose geometry is [null], anywhere in the dataset, makes
    the whole extraction throw: the points of the other features are lost. *)
Theorem null_geometry_aborts_extraction :
  forall (fs : list Feature) (feature : Feature),
    In feature fs ->
    geometry feature = None ->
    Simple.extractCoordinates {| features := Some fs |}
      = Js.Throw Js.TypeError /\
    ToMockData.extractCoordinates {| features := Some fs |}
      = Js.Throw Js.TypeError.
Proof.
  intros fs feature Hin Hnull.
  rewrite simple_extract_collect, toMockData_extract_collect.
  split; apply collect_throws with (x := feature) (e := Js.TypeError);
    try exact Hin;
    unfold Reference.featurePoints, Reference.featureVertices;
    rewrite Hnull; reflexivity.
Qed.

Lemma or_Unknown_truthy (a : option Json) :
  exists v, or a (Some (JStr "Unknown")) = Some v /\ truthy v = true.
Proof.
  destruct a as [v|]; simpl.
  - destruct (truthy v) eqn:Hv; eexists; split; try reflexivity. exact Hv.
  - eexists; split; reflexivity.
Qed.

(** Every extracted point has a label, and the label is truthy: never
    [undefined], [null], an empty string, [0] or [false]. *)
Theorem extracted_labels_truthy :
  forall (fs : list Feature) (out : list Coordinate),
    (Simple.extractCoordinates {| features := Some fs |} = Js.Ok out \/
     ToMockData.extractCoordinates {| features := Some fs |} = Js.Ok out) ->
    Forall (fun c => exists v, label c = Some v /\ truthy v = true) out.
Proof.
  intros fs out Hout.
  rewrite simple_extract_collect, toMockData_extract_collect in Hout.
  destruct Hout as [Hout|Hout];
    (eapply collect_Forall; [|exact Hout]);
    intros f ps Hps; unfold Reference.featurePoints in Hps;
    destruct (Reference.featureVertices f) as [vs|e]; simpl in Hps;
    try discriminate; injection Hps as <-;
    apply Forall_map, Forall_forall; intros p _; simpl.
  - apply or_Unknown_truthy.
  - apply or_Unknown_truthy.
Qed.

(** The two scripts read the same positions from every dataset: they throw
    together, and otherwise give the same [(lng, lat)] pairs in the same
    order, whatever the properties of the features are. *)
Theorem scripts_extract_same_positions :
  forall fs : list Feature,
    Reference.positionsOf
      (Simple.extractCoordinates {| features := Some fs |}) =
    Reference.positionsOf
      (ToMockData.extractCoordinates {| features := Some fs |}).
Proof.
  intros fs. rewrite simple_extract_collect, toMockData_extract_collect.
  rewrite !positions_of_collect. reflexivity.
Qed.

(** When every feature lacks a [name] property or has a truthy [FieldName],
    the two scripts extract the same points, labels included. *)
Theorem scripts_agree_without_name :
  forall fs : list Feature,
    Forall (fun f =>
              optGet (properties f) "name" = None \/
              exists v, optGet (properties f) "FieldName" = Some v /\
                        truthy v = true) fs ->
    ToMockData.extractCoordinates {| features := Some fs |} =
    Simple.extractCoordinates {| features := Some fs |}.
Proof.
  intros fs Hfs. rewrite simple_extract_collect, toMockData_extract_collect.
  apply collect_ext. eapply Forall_impl; [|exact Hfs]. intros f Hf.
  unfold Reference.featurePoints.
  replace (ToMockData.labelOf f) with (Simple.labelOf f); [reflexivity|].
  unfold ToMockData.labelOf, Simple.labelOf.
  destruct Hf as [Hname | (v & Hfield & Hv)].
  - rewrite Hname. destruct (optGet (properties f) "FieldName") as [v|];
      [|reflexivity].
    simpl. destruct (truthy v) eqn:Hv; simpl; rewrite ?Hv; reflexivity.
  - rewrite Hfield. simpl. rewrite Hv. simpl. rewrite Hv. reflexivity.
Qed.

(** A [FieldName] that is present but falsy (an empty string, [0], [false],
    [null]) counts as missing: the simple script answers "Unknown" and the
    fuller script goes on to [name]. *)
Theorem falsy_FieldName_skipped :
  forall (feature : Feature) (v : Json),
    optGet (properties feature) "FieldName" = Some v ->
    truthy v = false ->
    Simple.labelOf feature = Some (JStr "Unknown") /\
    ToMockData.labelOf feature =
      or (optGet (properties feature) "name") (Some (JStr "Unknown")).
Proof.
  intros feature v Hfield Hv. unfold Simple.labelOf, ToMockData.labelOf.
  rewrite Hfield. simpl. rewrite Hv. split; reflexivity.
Qed.

End ExtractionFacts.

Lemma null_geometry_aborts_extraction_witness :
  Simple.extractCoordinates
    {| GeoJson.features := Some [
         Reference.feature None "Point" (Reference.position (-83.0, 42.3)%float);
         {| GeoJson.properties := None; GeoJson.geometry := None |} ] |}
  = Js.Throw Js.TypeError.
Proof.
  apply (@null_geometry_aborts_extraction
           [Reference.feature None "Point"
              (Reference.position (-83.0, 42.3)%float);
            {| GeoJson.properties := None; GeoJson.geometry := None |}]
           {| GeoJson.properties := None; GeoJson.geometry := None |});
    [simpl; right; left; reflexivity | reflexivity].
Defined.

Lemma extracted_labels_truthy_witness :
  Forall (fun c => exists v, GeoJson.label c = Some v /\
                             GeoJson.truthy v = true)
    [Reference.extracted (Some (GeoJson.JStr "Unknown")) (-83.0, 42.3)%float].
Proof.
  apply (@extracted_labels_truthy
           [Reference.feature
              (Some (GeoJson.JObj [("FieldName"%string, GeoJson.JStr "")]))
              "Point" (Reference.position (-83.0, 42.3)%float)]).
  left. reflexivity.
Defined.

Lemma scripts_agree_without_name_witness :
  ToMockData.extractCoordinates
    {| GeoJson.features := Some [
         Reference.feature
           (Some (GeoJson.JObj [("FieldName"%string, GeoJson.JStr "Field A");
                                ("name"%string, GeoJson.JStr "Lake")]))
           "Point" (Reference.position (-83.0, 42.3)%float) ] |}
  = Simple.extractCoordinates
    {| GeoJson.features := Some [
         Reference.feature
           (Some (GeoJson.JObj [("FieldName"%string, GeoJson.JStr "Field A");
                                ("name"%string, GeoJson.JStr "Lake")]))
           "Point" (Reference.position (-83.0, 42.3)%float) ] |}.
Proof.
  apply scripts_agree_without_name.
  constructor; [|constructor].
  right. exists (GeoJson.JStr "Field A"). split; reflexivity.
Defined.

Lemma falsy_FieldName_skipped_witness :
  ToMockData.labelOf
    (Reference.feature
       (Some (GeoJson.JObj [("FieldName"%string, GeoJson.JStr "");
                            ("name"%string, GeoJson.JStr "Lake")]))
       "Point" (Reference.position (-83.0, 42.3)%float))
  = Some (GeoJson.JStr "Lake").
Proof.
  destruct (@falsy_FieldName_skipped
              (Reference.feature
                 (Some (GeoJson.JObj [("FieldName"%string, GeoJson.JStr "");
                                      ("name"%string, GeoJson.JStr "Lake")]))
                 "Point" (Reference.position (-83.0, 42.3)%float))
              (GeoJson.JStr "") eq_refl eq_refl) as [_ H].
  rewrite H. reflexivity.
Defined.

(** ** The category of a file name *)

Section FileCategory.
Import ToMockData.

Lemma includes_mentions3 text a b c :
  JsString.includes (JsString.toLowerCase text) a
  || JsString.includes (JsString.toLowerCase text) b
  || JsString.includes (JsString.toLowerCase text) c
    = true <-> Reference.mentionsIgnoringCase text [a; b; c].
Proof.
  unfold Reference.mentionsIgnoringCase.
  rewrite !orb_true_iff, !includes_OccursIgnoringCase.
  split.
  - intros [[H|H]|H]; repeat ((left; exact H) || right).
  - intros H. repeat (apply Exists_cons in H; destruct H as [H|H]; auto).
    inversion H.
Qed.

(** For a file name of ASCII characters, [generateCategory] takes the
    first of five keyword groups that has a word occurring in the name, in
    any mix of upper and lower case and anywhere, also inside a longer
    word; with none it answers [environmental]. *)
Theorem file_category_rules :
  forall (A : Type) (filename : string) (coords : list A),
    Reference.isAscii filename ->
    let category := generateCategory filename coords in
    let E := Reference.mentionsIgnoringCase filename
               ["gas"; "energy"; "oil"]%string in
    let W := Reference.mentionsIgnoringCase filename
               ["water"; "lake"; "river"]%string in
    let F := Reference.mentionsIgnoringCase filename
               ["forest"; "tree"; "wood"]%string in
    let L := Reference.mentionsIgnoringCase filename
               ["wildlife"; "animal"; "bird"]%string in
    let Q := Reference.mentionsIgnoringCase filename
               ["air"; "pollution"; "quality"]%string in
    (E -> category = energy) /\
    (~ E -> W -> category = water) /\
    (~ E -> ~ W -> F -> category = forest) /\
    (~ E -> ~ W -> ~ F -> L -> category = wildlife) /\
    (~ E -> ~ W -> ~ F -> ~ L -> Q -> category = air) /\
    (~ E -> ~ W -> ~ F -> ~ L -> ~ Q -> category = environmental).
Proof.
  intros A filename coords _ category E W F L Q.
  subst category E W F L Q. unfold generateCategory.
  set (name := JsString.toLowerCase filename).
  rewrite <- !includes_mentions3. fold name.
  destruct (JsString.includes name "gas" || JsString.includes name "energy"
            || JsString.includes name "oil");
  destruct (JsString.includes name "water" || JsString.includes name "lake"
            || JsString.includes name "river");
  destruct (JsString.includes name "forest" || JsString.includes name "tree"
            || JsString.includes name "wood");
  destruct (JsString.includes name "wildlife"
            || JsString.includes name "animal"
            || JsString.includes name "bird");
  destruct (JsString.includes name "air" || JsString.includes name "pollution"
            || JsString.includes name "quality");
  repeat split; intros; try reflexivity; try congruence;
    exfalso; auto.
Qed.

End FileCategory.

(** "OIL" occurs in "SOIL": a file of soil samples is filed under energy. *)
Lemma file_category_rules_witness :
  ToMockData.generateCategory "SOIL_Samples" (@nil nat) = ToMockData.energy.
Proof.
  destruct (@file_category_rules nat "SOIL_Samples" []) as (Henergy & _).
  - repeat constructor.
  - apply Henergy. right; right; left.
    exists "S"%string, "OIL"%string, "_Samples"%string.
    split; [reflexivity|]. apply spells_toLowerCase. reflexivity.
Defined.

(** ** processFile *)

Section ProcessFile.
Import GeoJson ToMockData.

(** For a positive budget the sample holds [min n len] points. *)
Lemma sample_length_min {A} (coords : list A) (n : Z) :
  (1 <= n)%Z ->
  length (Simple.sampleCoordinates coords n) =
  Nat.min (Z.to_nat n) (length coords).
Proof.
  intros Hn. destruct (Z.le_gt_cases (Z.of_nat (length coords)) n) as [Hle|Hgt].
  - unfold Simple.sampleCoordinates. rewrite loop_copies by exact Hle. lia.
  - rewrite sample_strideFrom.
    destruct (@strideFrom_picks A coords (Sampler.step coords n)
                (Z.to_nat n) 0) as [Hlen _].
    + intros k Hk. simpl. apply picks_in_range; lia.
    + rewrite Hlen. lia.
Qed.

Lemma extract_unsupported_only (fs : list Feature) :
  Forall (fun f => exists g, geometry f = Some g /\
                             type g <> "Point"%string /\
                             type g <> "Polygon"%string /\
                             type g <> "MultiPolygon"%string) fs ->
  ToMockData.extractCoordinates {| features := Some fs |} = Js.Ok [].
Proof.
  intros Hfs. unfold ToMockData.extractCoordinates; simpl.
  induction Hfs as [|f fs (g & Hg & Hpoint & Hpolygon & Hmulti) _ IH];
    simpl; [reflexivity|].
  rewrite (visit_unsupported ToMockData.labelOf f [] Hg) by assumption.
  exact IH.
Qed.

(** [processFile] writes nothing and answers [false] when the file cannot
    be parsed, when the collection has no [features] member, and when all
    its features have geometry types other than Point, Polygon and
    MultiPolygon: an empty result is never written. *)
Theorem processFile_refusals :
  forall (filename : string) (clock : nat -> Z),
    (forall e, processFile filename (Js.Throw e) clock = None) /\
    processFile filename (Js.Ok {| features := None |}) clock = None /\
    (forall fs : list Feature,
       Forall (fun f => exists g, geometry f = Some g /\
                                  type g <> "Point"%string /\
                                  type g <> "Polygon"%string /\
                                  type g <> "MultiPolygon"%string) fs ->
       processFile filename (Js.Ok {| features := Some fs |}) clock = None).
Proof.
  intros filename clock. repeat split.
  intros fs Hfs. unfold processFile. simpl Js.bind.
  rewrite (extract_unsupported_only Hfs). reflexivity.
Qed.

(** What [processFile] writes holds exactly one visualization, of type
    pinpoints; its points are a sample of the extracted ones, in their
    order, at least one and at most 50 of them, and the metadata counts
    both lists truly. *)
Theorem processFile_output :
  forall (filename : string) (parsed : Js.result FeatureCollection)
         (clock : nat -> Z) (written : MockData.t),
    processFile filename parsed clock = Some written ->
    exists geojson allCoords v,
      parsed = Js.Ok geojson /\
      ToMockData.extractCoordinates geojson = Js.Ok allCoords /\
      MockData.visualizations written = [v] /\
      Visualization.type v = "pinpoints"%string /\
      Reference.Subsequence (Visualization.data v) allCoords /\
      Metadata.totalPoints (Visualization.metadata v) = length allCoords /\
      Metadata.sampledPoints (Visualization.metadata v)
        = length (Visualization.data v) /\
      length (Visualization.data v) = Nat.min 50 (length allCoords) /\
      1 <= length (Visualization.data v).
Proof.
  intros filename parsed clock written Hwritten. unfold processFile in Hwritten.
  destruct parsed as [geojson|e]; simpl in Hwritten; [|discriminate].
  destruct (ToMockData.extractCoordinates geojson) as [allCoords|e] eqn:Hextract;
    [|discriminate].
  destruct (length allCoords =? 0) eqn:Hlen; [discriminate|].
  apply Nat.eqb_neq in Hlen.
  injection Hwritten as <-. simpl.
  exists geojson, allCoords. eexists.
  split; [reflexivity|]. split; [exact Hextract|]. split; [reflexivity|].
  simpl. rewrite sampleCoordinates_agree.
  pose proof (@sample_length_min _ allCoords 50 ltac:(lia)) as Hmin.
  repeat split.
  - rewrite sample_strideFrom.
    apply (@strideFrom_Subsequence _ allCoords _ 0 (Z.to_nat 50)
             (step_positive allCoords 50)).
  - rewrite Hmin. reflexivity.
  - rewrite Hmin. lia.
Qed.

End ProcessFile.

Lemma processFile_refusals_witness :
  ToMockData.processFile "Trails"
    (Js.Ok {| GeoJson.features := Some [
         Reference.feature None "LineString"
           (Reference.linearRing [(-84.5, 45.1); (-84.6, 45.2)]%float) ] |})
    (fun _ => 0%Z)
  = None.
Proof.
  destruct (processFile_refusals "Trails" (fun _ => 0%Z))
    as (_ & _ & Hunsupported).
  apply Hunsupported. constructor; [|constructor].
  eexists. split; [reflexivity|]. repeat split; discriminate.
Defined.

Lemma processFile_output_witness :
  exists written v,
    ToMockData.processFile "Lakes"
      (Js.Ok {| GeoJson.features := Some [
           Reference.feature None "Point"
             (Reference.position (-83.0, 42.3)%float) ] |})
      (fun _ => 0%Z) = Some written /\
    ToMockData.MockData.visualizations written = [v] /\
    length (ToMockData.Visualization.data v) = 1.
Proof.
  eexists.
  destruct (@processFile_output "Lakes"
              (Js.Ok {| GeoJson.features := Some [
                   Reference.feature None "Point"
                     (Reference.position (-83.0, 42.3)%float) ] |})
              (fun _ => 0%Z) _ eq_refl)
    as (geojson & allCoords & v & Hparsed & Hextract & Hvis & _ & _ & _ & _
        & Hlen & _).
  exists v. split; [reflexivity|]. split; [exact Hvis|].
  injection Hparsed as <-. injection Hextract as <-. exact Hlen.
Defined.

(** ** The display title of a file *)

Section DisplayTitle.
Import JsString.

Lemma title_char (c : ascii) :
  let c' := if Ascii.eqb c "_" then " "%char else c in
  c' <> "_"%char /\ upperChar c' <> "_"%char /\
  lowerChar (upperChar c') = lowerChar c'.
Proof.
  destruct c as [[] [] [] [] [] [] [] []]; vm_compute;
    repeat split; discriminate.
Qed.

Lemma capitalize_no_underscore s :
  forall afterWord before after,
    capitalizeFrom afterWord (replaceUnderscores s)
    <> (before ++ String "_" after)%string.
Proof.
  induction s as [|c s IH]; intros afterWord before after; simpl.
  - destruct before; discriminate.
  - destruct (title_char c) as (Hc & Hu & _).
    destruct before as [|b before]; simpl; intros H; injection H as Hhead Htail.
    + destruct (isWordChar _ && negb afterWord); contradiction.
    + exact (IH _ _ _ Htail).
Qed.

Lemma capitalize_length s :
  forall afterWord,
    String.length (capitalizeFrom afterWord (replaceUnderscores s))
    = String.length s.
Proof.
  induction s as [|c s IH]; intros afterWord; simpl; [reflexivity|].
  rewrite IH. reflexivity.
Qed.

Lemma capitalize_lower s :
  forall afterWord,
    toLowerCase (capitalizeFrom afterWord (replaceUnderscores s))
    = toLowerCase (replaceUnderscores s).
Proof.
  induction s as [|c s IH]; intros afterWord; simpl; [reflexivity|].
  rewrite IH. f_equal. destruct (title_char c) as (_ & _ & Hl).
  destruct (isWordChar _ && negb afterWord); [exact Hl | reflexivity].
Qed.

(** The title [processFile] shows for a file name has the length of the
    file name, holds no underscore, and differs from the file name with
    its underscores turned into spaces in the case of letters only. *)
Theorem display_title_shape :
  forall filename : string,
    let title := capitalizeWords (replaceUnderscores filename) in
    String.length title = String.length filename /\
    ~ Reference.Contains title "_" /\
    toLowerCase title = toLowerCase (replaceUnderscores filename).
Proof.
  intros filename title. subst title. unfold capitalizeWords.
  split; [apply capitalize_length|]. split; [|apply capitalize_lower].
  intros (before & after & H).
  exact (capitalize_no_underscore _ _ _ _ H).
Qed.

End DisplayTitle.

Example display_title_of_gas_storage :
  JsString.capitalizeWords
    (JsString.replaceUnderscores "michigan_gas_storage_fields")
  = "Michigan Gas Storage Fields"%string.
Proof. reflexivity. Qed.

(** ** The router *)

Section RouterFacts.
Import Environmental.

Variable db : MockData.
Variable url : option string.
Variable later : Instant -> Instant.

Lemma lowerChar_idempotent (c : ascii) :
  JsString.lowerChar (JsString.lowerChar c) = JsString.lowerChar c.
Proof. destruct c as [[] [] [] [] [] [] [] []]; reflexivity. Qed.

Lemma toLowerCase_idempotent (s : string) :
  JsString.toLowerCase (JsString.toLowerCase s) = JsString.toLowerCase s.
Proof.
  induction s as [|c s IH]; simpl; [reflexivity|].
  rewrite lowerChar_idempotent, IH. reflexivity.
Qed.

Lemma processWithGemini_lower query query' t :
  JsString.toLowerCase query = JsString.toLowerCase query' ->
  fst (processWithGemini query t) = fst (processWithGemini query' t).
Proof.
  intros H. unfold processWithGemini, await, setTimeout, ret. simpl.
  rewrite H. reflexivity.
Qed.

(** Classification looks at the lowercased text only: two queries, or two
    file names, that differ in the case of letters get the same category,
    and so does a text and its lowercase form. *)
Theorem classification_ignores_case :
  forall (text text' : string) (t : Instant) (A : Type) (coords : list A),
    JsString.toLowerCase text = JsString.toLowerCase text' ->
    fst (processWithGemini text t) = fst (processWithGemini text' t) /\
    fst (processWithGemini (JsString.toLowerCase text) t)
      = fst (processWithGemini text t) /\
    ToMockData.generateCategory text coords
      = ToMockData.generateCategory text' coords /\
    ToMockData.generateCategory (JsString.toLowerCase text) coords
      = ToMockData.generateCategory text coords.
Proof.
  intros text text' t A coords H. repeat split.
  - apply processWithGemini_lower. exact H.
  - apply processWithGemini_lower. apply toLowerCase_idempotent.
  - unfold ToMockData.generateCategory. rewrite H. reflexivity.
  - unfold ToMockData.generateCategory. rewrite toLowerCase_idempotent.
    reflexivity.
Qed.

(** [processQuery] turns down the empty query and nothing else: any other
    query gets a result that repeats the query and carries the three
    artifacts. *)
Theorem processQuery_rejects_only_empty :
  forall (input : Query.t) (t : Instant),
    (Query.query input = ""%string ->
     fst (processQuery db url later input t) = inl "Query cannot be empty"%string) /\
    (Query.query input <> ""%string ->
     exists r,
       fst (processQuery db url later input t) = inr r /\
       EnvironmentalResult.originalQuery r = Query.query input /\
       map Visualization.type (EnvironmentalResult.visualizations r)
         = [pinpoints; heatmap; numbers]).
Proof.
  intros input t. unfold processQuery. split; intros Hq.
  - rewrite Hq. reflexivity.
  - apply String.eqb_neq in Hq. rewrite Hq.
    eexists. split; [reflexivity|]. split; reflexivity.
Qed.

(** The optional [category] and [timeRange] of the input have no effect:
    two inputs with the same query get the same answer. *)
Theorem processQuery_reads_query_only :
  forall (input input' : Query.t) (t : Instant),
    Query.query input = Query.query input' ->
    processQuery db url later input t = processQuery db url later input' t.
Proof.
  intros [query category timeRange] [query' category' timeRange'] t H.
  simpl in H. subst query'. reflexivity.
Qed.

(** Every part of a result follows the one category found for the query:
    the summary, sources and charities are those of that category, and the
    title, description and source of all three artifacts too. *)
Theorem result_is_consistent_with_category :
  forall (input : Query.t) (t : Instant) (r : EnvironmentalResult.t),
    fst (processQuery db url later input t) = inr r ->
    let category := EnvironmentalResult.category r in
    category = Processed.category (fst (processWithGemini (Query.query input) t)) /\
    EnvironmentalResult.summary r = Response.summary (mockResponses category) /\
    EnvironmentalResult.sources r = Response.sources (mockResponses category) /\
    EnvironmentalResult.charities r
      = Response.charities (mockResponses category) /\
    Forall (fun v =>
              (Metadata.title (Visualization.metadata v),
               Metadata.description (Visualization.metadata v),
               Metadata.source (Visualization.metadata v))
              = metadata category)
           (EnvironmentalResult.visualizations r).
Proof.
  intros input t r Hr. unfold processQuery in Hr.
  destruct (Query.query input =? "")%string; [discriminate|].
  injection Hr as <-. simpl.
  repeat split; try reflexivity.
  repeat constructor; simpl;
    destruct (metadata _) as [[title description] source]; reflexivity.
Qed.

End RouterFacts.

(** ** What synthesis leaves alone *)

Section SynthesisFrames.
Import Environmental.

Variable db : MockData.

(** For biodiversity the three artifacts carry the three datasets as they
    are. *)
Theorem biodiversity_passes_datasets_through :
  forall (timeRange : option string) (t : Instant),
    map Visualization.data
      (fst (generateVisualizations db biodiversity timeRange t))
    = [PinpointData (mockPinpointData db);
       HeatmapData (mockHeatmapData db);
       NumbersData (mockNumbersData db)].
Proof.
  intros timeRange t. simpl.
  rewrite (map_same _ (mockPinpointData db))
    by (intros [lat lng name value severity]; reflexivity).
  rewrite (map_same _ (Heatmap.data (mockHeatmapData db)))
    by (intros [lat lng intensity value]; reflexivity).
  rewrite (map_same _ (Numbers.keyMetrics (mockNumbersData db)))
    by (intros [label value change]; reflexivity).
  destruct (mockHeatmapData db), (mockNumbersData db). reflexivity.
Qed.

(** In the heatmap artifact of any category the bounds, the grid size, the
    number and order of the cells and each cell's lat, lng and value are
    those of the dataset: only intensities can differ. *)
Theorem heatmap_frame :
  forall (category : Category) (t : Instant),
    exists grid,
      Visualization.data
        (fst (generateSingleVisualization db heatmap category t))
        = HeatmapData grid /\
      Heatmap.bounds grid = Heatmap.bounds (mockHeatmapData db) /\
      Heatmap.gridSize grid = Heatmap.gridSize (mockHeatmapData db) /\
      length (Heatmap.data grid) = length (Heatmap.data (mockHeatmapData db)) /\
      Forall2 (fun cell cell' =>
                 HeatmapCell.lat cell' = HeatmapCell.lat cell /\
                 HeatmapCell.lng cell' = HeatmapCell.lng cell /\
                 HeatmapCell.value cell' = HeatmapCell.value cell)
              (Heatmap.data (mockHeatmapData db)) (Heatmap.data grid).
Proof.
  intros category t. eexists. split; [reflexivity|]. simpl.
  split; [reflexivity|]. split; [reflexivity|]. split; [apply length_map|].
  apply Forall2_map_r. intros cell. repeat split.
Qed.

(** In the numbers artifact of any category the total area, the overall
    percentage change (with its sign, for wildfire too) and the time frame
    are those of the dataset, and so are the number, order, labels and
    displayed values of the key metrics: only their changes can differ. *)
Theorem numbers_frame :
  forall (category : Category) (t : Instant),
    exists figures,
      Visualization.data
        (fst (generateSingleVisualization db numbers category t))
        = NumbersData figures /\
      Numbers.totalAffectedArea figures
        = Numbers.totalAffectedArea (mockNumbersData db) /\
      Numbers.percentageChange figures
        = Numbers.percentageChange (mockNumbersData db) /\
      Numbers.timeframe figures = Numbers.timeframe (mockNumbersData db) /\
      length (Numbers.keyMetrics figures)
        = length (Numbers.keyMetrics (mockNumbersData db)) /\
      Forall2 (fun metric metric' =>
                 Metric.label metric' = Metric.label metric /\
                 Metric.value metric' = Metric.value metric)
              (Numbers.keyMetrics (mockNumbersData db))
              (Numbers.keyMetrics figures).
Proof.
  intros category t. eexists. split; [reflexivity|]. simpl.
  do 3 (split; [reflexivity|]). split; [apply length_map|].
  apply Forall2_map_r. intros metric. repeat split.
Qed.

(** [getVisualization] answers with the artifact that [processQuery]
    would carry for that type and category, but for the time stamp. *)
Theorem getVisualization_matches_synthesis :
  forall (type : VisualizationType) (category : Category)
         (timeRange : option string) (t t' : Instant),
    exists v,
      In v (fst (generateVisualizations db category timeRange t)) /\
      Visualization.type v
        = Visualization.type (fst (getVisualization db type category t')) /\
      Visualization.type v = type /\
      Visualization.data v
        = Visualization.data (fst (getVisualization db type category t')) /\
      Metadata.title (Visualization.metadata v)
        = Metadata.title
            (Visualization.metadata (fst (getVisualization db type category t'))) /\
      Metadata.description (Visualization.metadata v)
        = Metadata.description
            (Visualization.metadata (fst (getVisualization db type category t'))) /\
      Metadata.source (Visualization.metadata v)
        = Metadata.source
            (Visualization.metadata (fst (getVisualization db type category t'))).
Proof.
  intros type category timeRange t t'.
  destruct type; eexists.
  - split; [left; reflexivity|]. repeat split.
  - split; [right; left; reflexivity|]. repeat split.
  - split; [right; right; left; reflexivity|]. repeat split.
Qed.

End SynthesisFrames.

(** The two samplers agree on every input and budget: the early return of
    the fuller script changes no answer. *)
Theorem samplers_agree :
  forall (A : Type) (coords : list A) (n : Z),
    ToMockData.sampleCoordinates coords n = Simple.sampleCoordinates coords n.
Proof. exact sampleCoordinates_agree. Qed.

(** The router theorems at the datasets the module starts with. *)

Lemma classification_ignores_case_witness :
  fst (Environmental.processWithGemini "WILDFIRE Risk" 0%Z)
  = fst (Environmental.processWithGemini "wildfire risk" 0%Z).
Proof.
  destruct (@classification_ignores_case "WILDFIRE Risk" "wildfire risk" 0%Z
              nat [] eq_refl) as (H & _).
  exact H.
Defined.

Lemma processQuery_rejects_only_empty_witness :
  exists r,
    fst (Environmental.processQuery
           (Environmental.initialMockData (fun _ => 0.25%float)
                                          (fun _ => 40%float))
           None (fun t => (t + 1)%Z)
           {| Environmental.Query.query := "Forest loss";
              Environmental.Query.category := None;
              Environmental.Query.timeRange := None |} 0%Z) = inr r /\
    Environmental.EnvironmentalResult.originalQuery r = "Forest loss"%string.
Proof.
  destruct (@processQuery_rejects_only_empty
              (Environmental.initialMockData (fun _ => 0.25%float)
                                             (fun _ => 40%float))
              None (fun t => (t + 1)%Z)
              {| Environmental.Query.query := "Forest loss";
                 Environmental.Query.category := None;
                 Environmental.Query.timeRange := None |} 0%Z)
    as (_ & Haccept).
  destruct Haccept as (r & Hr & Hquery & _); [discriminate|].
  exists r. split; [exact Hr | exact Hquery].
Defined.

Lemma processQuery_reads_query_only_witness :
  Environmental.processQuery
    (Environmental.initialMockData (fun _ => 0.25%float) (fun _ => 40%float))
    None (fun t => (t + 1)%Z)
    {| Environmental.Query.query := "Forest loss";
       Environmental.Query.category := Some Environmental.wildfire;
       Environmental.Query.timeRange := Some "2020-2024"%string |} 0%Z
  = Environmental.processQuery
      (Environmental.initialMockData (fun _ => 0.25%float) (fun _ => 40%float))
      None (fun t => (t + 1)%Z)
      {| Environmental.Query.query := "Forest loss";
         Environmental.Query.category := None;
         Environmental.Query.timeRange := None |} 0%Z.
Proof. apply processQuery_reads_query_only. reflexivity. Defined.

Lemma result_is_consistent_with_category_witness :
  exists r,
    fst (Environmental.processQuery
           (Environmental.initialMockData (fun _ => 0.25%float)
                                          (fun _ => 40%float))
           None (fun t => (t + 1)%Z)
           {| Environmental.Query.query := "Campfire safety";
              Environmental.Query.category := None;
              Environmental.Query.timeRange := None |} 0%Z) = inr r /\
    Environmental.EnvironmentalResult.category r = Environmental.wildfire /\
    Environmental.EnvironmentalResult.sources r
      = Environmental.Response.sources
          (Environmental.mockResponses Environmental.wildfire).
Proof.
  eexists. split; [reflexivity|].
  destruct (@result_is_consistent_with_category
              (Environmental.initialMockData (fun _ => 0.25%float)
                                             (fun _ => 40%float))
              None (fun t => (t + 1)%Z)
              {| Environmental.Query.query := "Campfire safety";
                 Environmental.Query.category := None;
                 Environmental.Query.timeRange := None |} 0%Z _ eq_refl)
    as (Hcategory & _ & Hsources & _).
  split; [exact Hcategory | exact Hsources].
Defined.

(** ** The simple script as a whole *)

Section SimpleScript.
Import GeoJson.

(** The simple script writes its object whenever the extraction does not
    throw, also when no point was extracted: the one visualization then
    holds [min 50 total] of the extracted points, in their order, which
    may be none at all.  A throw of the extraction ends the script. *)
Theorem simple_script_output :
  forall (geojson : FeatureCollection) (clock : nat -> Z),
    (forall e, Simple.extractCoordinates geojson = Js.Throw e ->
               Simple.script geojson clock = Js.Throw e) /\
    (forall allCoords,
       Simple.extractCoordinates geojson = Js.Ok allCoords ->
       exists written v,
         Simple.script geojson clock = Js.Ok written /\
         Simple.MockData.visualizations written = [v] /\
         Simple.Visualization.type v = "pinpoints"%string /\
         Reference.Subsequence (Simple.Visualization.data v) allCoords /\
         length (Simple.Visualization.data v)
           = Nat.min 50 (length allCoords)) /\
    (features geojson = Some [] ->
     exists written v,
       Simple.script geojson clock = Js.Ok written /\
       Simple.MockData.visualizations written = [v] /\
       Simple.Visualization.data v = []).
Proof.
  intros geojson clock. unfold Simple.script. split; [|split].
  - intros e He. rewrite He. reflexivity.
  - intros allCoords Hextract. rewrite Hextract. simpl.
    do 2 eexists. split; [reflexivity|]. split; [reflexivity|]. simpl.
    split; [reflexivity|]. split.
    + rewrite sample_strideFrom.
      apply (@strideFrom_Subsequence _ allCoords _ 0 (Z.to_nat 50)
               (step_positive allCoords 50)).
    + rewrite (@sample_length_min _ allCoords 50) by lia. reflexivity.
  - intros Hfs. destruct geojson as [fs]. simpl in Hfs. subst fs.
    do 2 eexists. split; [reflexivity|]. split; reflexivity.
Qed.

End SimpleScript.

Lemma simple_script_output_witness :
  exists written v,
    Simple.script {| GeoJson.features := Some [] |} (fun _ => 0%Z)
      = Js.Ok written /\
    Simple.MockData.visualizations written = [v] /\
    Simple.Visualization.data v = [].
Proof.
  destruct (simple_script_output {| GeoJson.features := Some [] |}
              (fun _ => 0%Z)) as (_ & _ & Hempty).
  apply Hempty. reflexivity.
Defined.
